(** * vscan-form-field-analyzer: the field rule engine of [main.py]

    A shallow embedding of [analyze_form_fields] (main.py, lines 22-76) and of
    the Python built-ins it relies on: [str] values as sequences of code
    points, [re.match] for the one pattern the program compiles,
    [str.isdigit], the attribute dictionary of a parsed tag, [find_all]
    over the parsed tree, and the [logging] calls as an explicit log that is
    threaded through the function. *)

From Stdlib Require Import NArith Ascii String List Bool Lia.
From stdpp Require Import base decidable option list countable gmap fin_maps.

Set Warnings "-register-all".

Local Open Scope N_scope.
Local Open Scope list_scope.

(** ** Python strings *)

(** A Python [str] is a sequence of Unicode code points. *)
Definition pystr : Type := list N.

(** A literal of the source, code point by code point. *)
Fixpoint py (s : string) : pystr :=
  match s with
  | EmptyString => []
  | String a s' => N_of_ascii a :: py s'
  end.

(** ** The regular expression engine, as far as line 58 uses it *)

(** A set of characters: the literal [c], or the negated class [[^c]]. *)
Inductive charset : Type :=
| Lit (c : N)
| NotLit (c : N).

Definition charset_mem (cs : charset) (c : N) : bool :=
  match cs with
  | Lit d => c =? d
  | NotLit d => negb (c =? d)
  end.

(** One item of a pattern: a character set taken once, or repeated by [+]. *)
Inductive quantifier : Type := One | Plus.

Definition item : Type := (charset * quantifier)%type.
Definition pattern : Type := list item.

(** r"[^@]+@[^@]+\.[^@]+" (line 58): 64 is '@', 46 is '.'. *)
Definition EMAIL_RE : pattern :=
  [ (NotLit 64, Plus); (Lit 64, One); (NotLit 64, Plus); (Lit 46, One);
    (NotLit 64, Plus) ].

(** The backtracking matcher run from the current position: a [+] item
    first tries one more repetition (greedy) and, failing that, hands over
    to the rest of the pattern.  The pattern need not reach the end of the
    string. *)
Fixpoint match_here (s : pystr) (p : pattern) {struct s} : bool :=
  match p with
  | [] => true
  | (cs, q) :: rest =>
      match s with
      | [] => false
      | c :: s' =>
          charset_mem cs c &&
          match q with
          | One => match_here s' rest
          | Plus => match_here s' p || match_here s' rest
          end
      end
  end.

(** [re.match(p, s)]: a match is looked for at position 0 only.  The result
    is the truth value of the returned object ([None] is false). *)
Definition re_match (p : pattern) (s : pystr) : bool := match_here s p.

(** [re.search(p, s)]: the first position at which [p] matches, scanning
    from the left.  The program does not call it; it is here to compare
    with. *)
Fixpoint re_search (p : pattern) (s : pystr) : bool :=
  match_here s p ||
  match s with
  | [] => false
  | _ :: s' => re_search p s'
  end.

(** ** [str.isdigit] *)

(** Code points with Numeric_Type=Decimal (general category Nd), as ranges
    with both ends included; Unicode 14.0, the database of CPython 3.11.
    These are the characters [str.isdecimal] accepts. *)
Definition decimal_ranges : list (N * N) :=
  [ (48, 57); (1632, 1641); (1776, 1785); (1984, 1993); (2406, 2415);
    (2534, 2543); (2662, 2671); (2790, 2799); (2918, 2927); (3046, 3055);
    (3174, 3183); (3302, 3311); (3430, 3439); (3558, 3567); (3664, 3673);
    (3792, 3801); (3872, 3881); (4160, 4169); (4240, 4249); (6112, 6121);
    (6160, 6169); (6470, 6479); (6608, 6617); (6784, 6793); (6800, 6809);
    (6992, 7001); (7088, 7097); (7232, 7241); (7248, 7257); (42528, 42537);
    (43216, 43225); (43264, 43273); (43472, 43481); (43504, 43513);
    (43600, 43609); (44016, 44025); (65296, 65305); (66720, 66729);
    (68912, 68921); (69734, 69743); (69872, 69881); (69942, 69951);
    (70096, 70105); (70384, 70393); (70736, 70745); (70864, 70873);
    (71248, 71257); (71360, 71369); (71472, 71481); (71904, 71913);
    (72016, 72025); (72784, 72793); (73040, 73049); (73120, 73129);
    (92768, 92777); (92864, 92873); (93008, 93017); (120782, 120831);
    (123200, 123209); (123632, 123641); (125264, 125273); (130032, 130041) ].

(** Code points with Numeric_Type=Digit: superscripts and subscripts,
    circled and parenthesised digits and the like (same database). *)
Definition digit_only_ranges : list (N * N) :=
  [ (178, 179); (185, 185); (4969, 4977); (6618, 6618); (8304, 8304);
    (8308, 8313); (8320, 8329); (9312, 9320); (9332, 9340); (9352, 9360);
    (9450, 9450); (9461, 9469); (9471, 9471); (10102, 10110);
    (10112, 10120); (10122, 10130); (68160, 68163); (69216, 69224);
    (69714, 69722); (127232, 127242) ].

Definition in_ranges (rs : list (N * N)) (c : N) : bool :=
  existsb (fun r => (fst r <=? c) && (c <=? snd r)) rs.

Definition Py_UNICODE_ISDECIMAL (c : N) : bool := in_ranges decimal_ranges c.

(** A digit in the sense of [str.isdigit]: Numeric_Type Decimal or Digit. *)
Definition Py_UNICODE_ISDIGIT (c : N) : bool :=
  in_ranges decimal_ranges c || in_ranges digit_only_ranges c.

(** [s.isdigit()]: at least one character, and every character a digit. *)
Definition isdigit (s : pystr) : bool :=
  match s with
  | [] => false
  | _ :: _ => forallb Py_UNICODE_ISDIGIT s
  end.

(** ** The parsed document *)

(** A tag of the parsed tree: its name, its attribute dictionary and its
    children in document order, each child a text node or a tag.  The parser
    gives every attribute a string (the empty one when the attribute is
    written without a value), except the few multi-valued ones such as
    class and rel, which it splits into lists; the program reads none of
    those, so that they are kept here as strings like the rest. *)
Inductive Tag : Type :=
| mkTag (tag_name : pystr) (attrs : gmap pystr pystr)
        (contents : list (pystr + Tag)).

Definition tag_name (t : Tag) : pystr := match t with mkTag n _ _ => n end.
Definition attrs (t : Tag) : gmap pystr pystr :=
  match t with mkTag _ a _ => a end.

(** The tags below [t] in document order (pre-order), [t] itself left out.
    Text nodes are skipped: a search by tag name never returns them. *)
Fixpoint descendant_tags (t : Tag) : list Tag :=
  match t with
  | mkTag _ _ cs =>
      (fix walk (cs : list (pystr + Tag)) : list Tag :=
         match cs with
         | [] => []
         | inl _ :: cs' => walk cs'
         | inr c :: cs' => c :: descendant_tags c ++ walk cs'
         end) cs
  end.

(** [t.find_all(name)]: every descendant tag called [name]. *)
Definition find_all (t : Tag) (name : pystr) : list Tag :=
  filter (fun d => tag_name d = name) (descendant_tags t).

(** [tag.get(key, default)] and [tag.has_attr(key)] read the dictionary. *)
Definition get (t : Tag) (key dflt : pystr) : pystr :=
  default dflt (attrs t !! key).

Definition has_attr (t : Tag) (key : pystr) : bool :=
  bool_decide (is_Some (attrs t !! key)).

(** ** The record built for each input (lines 45-55) *)

Record FormField : Type := mkFormField {
  name : pystr;
  type : pystr;
  autocomplete : pystr;
  required : bool;
  readonly : bool;
  disabled : bool;
  value : pystr;
  placeholder : pystr;
  vulnerabilities : list pystr
}.

Definition new_field_data (input_field : Tag) : FormField :=
  {| name := get input_field (py "name") (py "N/A");
     type := get input_field (py "type") (py "text");
     autocomplete := get input_field (py "autocomplete") (py "off");
     required := has_attr input_field (py "required");
     readonly := has_attr input_field (py "readonly");
     disabled := has_attr input_field (py "disabled");
     value := get input_field (py "value") (py "N/A");
     placeholder := get input_field (py "placeholder") (py "N/A");
     vulnerabilities := [] |}.

(** [field_data['vulnerabilities'].append(msg)] *)
Definition append_vulnerability (field_data : FormField) (msg : pystr)
  : FormField :=
  {| name := name field_data;
     type := type field_data;
     autocomplete := autocomplete field_data;
     required := required field_data;
     readonly := readonly field_data;
     disabled := disabled field_data;
     value := value field_data;
     placeholder := placeholder field_data;
     vulnerabilities := vulnerabilities field_data ++ [msg] |}.

(** ** The four rules (lines 57-69) *)

Definition EMAIL_MSG : pystr := py "Potential missing email validation.".
Definition NUMERIC_MSG : pystr :=
  py "Potential missing numerical validation.".
Definition AUTOCOMPLETE_MSG (ty : pystr) : pystr :=
  py "Autocomplete is enabled for sensitive field of type '" ++ ty ++
  py "'.  This is generally discouraged".
Definition REQUIRED_MSG : pystr :=
  py "Missing 'required' attribute. Consider adding for important fields".

(** The condition of the [if] on line 58. *)
Definition email_rule (fd : FormField) : bool :=
  bool_decide (type fd = py "email") &&
  bool_decide (value fd ≠ py "N/A") &&
  negb (re_match EMAIL_RE (value fd)).

(** The condition of the [elif] on line 60, on its own. *)
Definition numeric_rule (fd : FormField) : bool :=
  bool_decide (type fd ∈ [py "number"; py "tel"]) &&
  bool_decide (value fd ≠ py "N/A") &&
  negb (isdigit (value fd)).

(** The condition on line 64. *)
Definition autocomplete_rule (fd : FormField) : bool :=
  bool_decide (type fd ∈ [py "password"; py "credit-card"; py "cvv"]) &&
  bool_decide (autocomplete fd ≠ py "off").

(** The condition on line 68. *)
Definition required_rule (fd : FormField) : bool :=
  bool_decide (type fd ∉ [py "hidden"; py "submit"; py "button"]) &&
  negb (required fd).

(** Lines 58-61: the [if]/[elif] chain. *)
Definition check_validation (fd : FormField) : FormField :=
  if email_rule fd then append_vulnerability fd EMAIL_MSG
  else if numeric_rule fd then append_vulnerability fd NUMERIC_MSG
  else fd.

(** Lines 64-65. *)
Definition check_autocomplete (fd : FormField) : FormField :=
  if autocomplete_rule fd
  then append_vulnerability fd (AUTOCOMPLETE_MSG (type fd))
  else fd.

(** Lines 68-69. *)
Definition check_required (fd : FormField) : FormField :=
  if required_rule fd then append_vulnerability fd REQUIRED_MSG else fd.

(** Lines 45-69: the record of one input once the rules have run. *)
Definition check_field (input_field : Tag) : FormField :=
  check_required (check_autocomplete (check_validation
    (new_field_data input_field))).

(** ** Logging *)

Inductive level : Type := INFO | WARNING | ERROR.

Definition LogRecord : Type := (level * pystr)%type.

(** A computation that may add records to the log. *)
Definition Logging (A : Type) : Type :=
  list LogRecord -> A * list LogRecord.

Definition ret {A : Type} (a : A) : Logging A := fun log => (a, log).

Definition bind {A B : Type} (m : Logging A) (k : A -> Logging B)
  : Logging B :=
  fun log => let (a, log') := m log in k a log'.

Notation "x <- m ;; k" := (bind m (fun x => k))
  (at level 100, m at next level, right associativity).
Notation "m ;;; k" := (bind m (fun _ => k))
  (at level 100, right associativity).

Definition logging_warning (msg : pystr) : Logging unit :=
  fun log => (tt, log ++ [(WARNING, msg)]).

(** ** [analyze_form_fields] (lines 22-76) *)

(** The message of line 72. *)
Definition field_warning (fd : FormField) (url : pystr) : pystr :=
  py "Potential vulnerabilities found in field '" ++ name fd ++
  py "' on " ++ url.

(** The inner loop (lines 44-74) over the inputs of one form; [results] is
    the list the function accumulates. *)
Fixpoint inputs_loop (url : pystr) (inputs : list Tag)
    (results : list FormField) : Logging (list FormField) :=
  match inputs with
  | [] => ret results
  | input_field :: rest =>
      let field_data := check_field input_field in
      (match vulnerabilities field_data with
       | [] => ret tt
       | _ :: _ => logging_warning (field_warning field_data url)
       end) ;;;
      inputs_loop url rest (results ++ [field_data])
  end.

(** The outer loop (line 43). *)
Fixpoint forms_loop (url : pystr) (forms : list Tag)
    (results : list FormField) : Logging (list FormField) :=
  match forms with
  | [] => ret results
  | form :: rest =>
      results' <- inputs_loop url (find_all form (py "input")) results ;;
      forms_loop url rest results'
  end.

(** Lines 36-76, on the parsed document. *)
Definition analyze_soup (soup : Tag) (url : pystr)
  : Logging (list FormField) :=
  let forms := find_all soup (py "form") in
  let results := [] in
  match forms with
  | [] =>
      logging_warning (py "No forms found on " ++ url) ;;;
      ret results
  | _ :: _ => forms_loop url forms results
  end.

(** The whole function.  The HTML parser is a library the program calls
    (line 35); it is taken as a function from the page text to the tree. *)
Definition analyze_form_fields (BeautifulSoup : pystr -> Tag)
    (html_content url : pystr) : Logging (list FormField) :=
  analyze_soup (BeautifulSoup html_content) url.

(** ** Notions the statements below are phrased in *)

(** The words of a pattern, item by item: a [One] item is one character of
    its set, a [Plus] item a non-empty run of them. *)
Fixpoint lang (p : pattern) (w : pystr) : Prop :=
  match p with
  | [] => w = []
  | (cs, One) :: rest =>
      exists c v, w = c :: v /\ charset_mem cs c = true /\ lang rest v
  | (cs, Plus) :: rest =>
      exists u v, w = u ++ v /\ u <> [] /\
        Forall (fun c => charset_mem cs c = true) u /\ lang rest v
  end.

(** [p] matches at position 0 of [s]: some prefix of [s] is a word of [p]. *)
Definition matches_at_start (p : pattern) (s : pystr) : Prop :=
  exists w r, s = w ++ r /\ lang p w.

(** [p] matches somewhere in [s] (an unanchored, substring match). *)
Definition matches_somewhere (p : pattern) (s : pystr) : Prop :=
  exists pre w r, s = pre ++ w ++ r /\ lang p w.

(** The email pattern, spelled out: a run free of '@', an '@', a second
    such run, a '.', and a third one. *)
Definition email_shaped (w : pystr) : Prop :=
  exists a b c, w = a ++ 64 :: b ++ 46 :: c /\
    a <> [] /\ b <> [] /\ c <> [] /\
    (64 ∉ a) /\ (64 ∉ b) /\ (64 ∉ c).

(** A non-empty string of characters that all satisfy [P]. *)
Definition composed_of (P : N -> bool) (s : pystr) : Prop :=
  s <> [] /\ Forall (fun c => P c = true) s.

(** The messages of the rules that trigger on [fd], in the order in which
    the rules are evaluated; rule 2 is reached only when rule 1 fails. *)
Definition findings (fd : FormField) : list pystr :=
  (if email_rule fd then [EMAIL_MSG]
   else if numeric_rule fd then [NUMERIC_MSG] else []) ++
  (if autocomplete_rule fd then [AUTOCOMPLETE_MSG (type fd)] else []) ++
  (if required_rule fd then [REQUIRED_MSG] else []).

(** The inputs the two loops visit, in the order they visit them. *)
Definition visited_inputs (soup : Tag) : list Tag :=
  concat (map (fun form => find_all form (py "input"))
              (find_all soup (py "form"))).

(** The notices of line 72 for a list of inputs. *)
Definition field_notices (url : pystr) (inputs : list Tag)
  : list LogRecord :=
  concat (map (fun input_field =>
                 match vulnerabilities (check_field input_field) with
                 | [] => []
                 | _ :: _ =>
                     [(WARNING, field_warning (check_field input_field) url)]
                 end) inputs).

(** ** Sample inputs *)

(** An [<input>] tag with the given attributes and no children. *)
Definition input_tag (l : list (pystr * pystr)) : Tag :=
  mkTag (py "input") (list_to_map l) [].

(** [<input type="email" value="@a@b.c">] *)
Definition at_sign_first : Tag :=
  input_tag [(py "type", py "email"); (py "value", py "@a@b.c")].

(** [<input type="number" value="²">] (U+00B2, superscript two) *)
Definition superscript_two : Tag :=
  input_tag [(py "type", py "number"); (py "value", [178])].

(** An input of type "number" whose value attribute is the empty string. *)
Definition empty_number : Tag :=
  input_tag [(py "type", py "number"); (py "value", [])].

(** [<input type="number" value="2024">] *)
Definition year_number : Tag :=
  input_tag [(py "type", py "number"); (py "value", py "2024")].

(** [<input type="email" value="bad-email">] *)
Definition bad_email : Tag :=
  input_tag [(py "type", py "email"); (py "value", py "bad-email")].

(** [<input type="password" autocomplete="on">] *)
Definition password_on : Tag :=
  input_tag [(py "type", py "password"); (py "autocomplete", py "on")].

(** [<input type="hidden" value="token" autocomplete="on">] *)
Definition hidden_token : Tag :=
  input_tag [(py "type", py "hidden"); (py "value", py "token");
             (py "autocomplete", py "on")].

(** [<input>] *)
Definition bare_input : Tag := input_tag [].

(** [<input type="tel" value="12a3" name="phone" readonly>] and the same
    input under another name, with a placeholder and disabled instead. *)
Definition phone_a : Tag :=
  input_tag [(py "type", py "tel"); (py "value", py "12a3");
             (py "name", py "phone"); (py "readonly", [])].
Definition phone_b : Tag :=
  input_tag [(py "type", py "tel"); (py "value", py "12a3");
             (py "name", py "mobile"); (py "placeholder", py "digits");
             (py "disabled", [])].

(** The tree of a page that holds no markup: the text is the one child of
    the document (nothing at all for the empty page). *)
Definition text_only (html_content : pystr) : Tag :=
  mkTag (py "[document]") ∅
        match html_content with
        | [] => []
        | _ :: _ => [inl html_content]
        end.

(** ** The rest of the program: fetching, saving and [main] *)

(** What the program leaves behind: the records the logger has emitted and
    its threshold, the lines printed, the URLs requested and the files
    written in full, each in order. *)
Record World : Type := mkWorld {
  log_records : list LogRecord;
  logger_level : N;
  stdout : list pystr;
  requests_sent : list pystr;
  files_written : list (pystr * pystr)
}.

(** The numeric value of a level, as in the [logging] module. *)
Definition levelno (l : level) : N :=
  match l with
  | INFO => 20
  | WARNING => 30
  | ERROR => 40
  end.

(** [logging.DEBUG] *)
Definition DEBUG : N := 10.

(** Line 9, [logging.basicConfig(level=logging.INFO)], before anything
    else has happened. *)
Definition initial_world : World :=
  {| log_records := []; logger_level := levelno INFO; stdout := [];
     requests_sent := []; files_written := [] |}.

(** [logging.log(l, msg)] on the root logger: the record is emitted when
    its level reaches the threshold. *)
Definition logging_log (l : level) (msg : pystr) (w : World) : World :=
  if logger_level w <=? levelno l
  then {| log_records := log_records w ++ [(l, msg)];
          logger_level := logger_level w;
          stdout := stdout w;
          requests_sent := requests_sent w;
          files_written := files_written w |}
  else w.

(** [logging.getLogger().setLevel(n)] *)
Definition setLevel (n : N) (w : World) : World :=
  {| log_records := log_records w;
     logger_level := n;
     stdout := stdout w;
     requests_sent := requests_sent w;
     files_written := files_written w |}.

(** [print(line)] *)
Definition print (line : pystr) (w : World) : World :=
  {| log_records := log_records w;
     logger_level := logger_level w;
     stdout := stdout w ++ [line];
     requests_sent := requests_sent w;
     files_written := files_written w |}.

(** A computation written against a bare log, run in the world: each record
    it adds goes through the logger. *)
Definition run_logging {A : Type} (m : Logging A) (w : World) : A * World :=
  (fst (m []),
   foldl (fun w' r => logging_log (fst r) (snd r) w') w (snd (m []))).

(** What [requests.get(url, timeout=10)] comes back with: a response, of
    which the program uses the status code and the text, or an exception of
    the library's [RequestException] family (connection failure, timeout,
    invalid URL), of which it uses the text.  [http_error] is the text of
    the [HTTPError] that [raise_for_status] builds for the response from
    its status, reason phrase and final URL. *)
Inductive Outcome : Type :=
| Response (status_code : N) (text http_error : pystr)
| RequestException (e : pystr).

(** What the program cannot know in advance: the parser it imports, the
    answer of the network for a URL, the text of the [IOError] that opening
    or writing a file raises ([None] when the write goes through), and
    [str] of a non-empty list of strings as [print] shows it. *)
Record Env : Type := mkEnv {
  html_parser : pystr -> Tag;
  requests_get : pystr -> Outcome;
  IOError_of : pystr -> option pystr;
  str_of_list : list pystr -> pystr
}.

(** [s.startswith(prefix)] *)
Fixpoint startswith (s prefix : pystr) {struct prefix} : bool :=
  match prefix with
  | [] => true
  | p :: prefix' =>
      match s with
      | [] => false
      | c :: s' => (c =? p) && startswith s' prefix'
      end
  end.

(** [fetch_html_content] (lines 79-95): the text of the response, or
    [None] and an error record when the request raises or the status is
    4xx or 5xx. *)
Definition fetch_html_content (env : Env) (url : pystr) (w : World)
  : option pystr * World :=
  let w :=
    {| log_records := log_records w;
       logger_level := logger_level w;
       stdout := stdout w;
       requests_sent := requests_sent w ++ [url];
       files_written := files_written w |} in
  match requests_get env url with
  | Response status_code text http_error =>
      if (400 <=? status_code) && (status_code <? 600)
      then (None,
            logging_log ERROR
              (py "Error fetching URL " ++ url ++ py ": " ++ http_error) w)
      else (Some text, w)
  | RequestException e =>
      (None,
       logging_log ERROR (py "Error fetching URL " ++ url ++ py ": " ++ e) w)
  end.

(** *** [json.dump(results, f, indent=4)] *)

(** The values the program serialises: strings, booleans, lists and
    dictionaries in insertion order. *)
Inductive JSON : Type :=
| JString (s : pystr)
| JBool (b : bool)
| JArray (items : list JSON)
| JObject (members : list (pystr * JSON)).

(** One lower-case hexadecimal digit. *)
Definition hexdigit (d : N) : N := if d <? 10 then 48 + d else 87 + d.

(** ['{0:04x}'.format(n)] for [n] below 0x10000. *)
Definition hex4 (n : N) : pystr :=
  [ hexdigit (n / 4096 mod 16); hexdigit (n / 256 mod 16);
    hexdigit (n / 16 mod 16); hexdigit (n mod 16) ].

(** The replacement of one character in [encode_basestring_ascii]: a
    backslash (92) and a letter for the quote (34), the backslash, the line
    feed, the carriage return, the tab, the backspace and the form feed;
    the other printable ASCII characters as they are; everything else as
    backslash, u (117) and four hexadecimal digits, twice (a surrogate
    pair) above the basic plane. *)
Definition escape_char (c : N) : pystr :=
  if c =? 34 then [92; 34]
  else if c =? 92 then [92; 92]
  else if c =? 10 then [92; 110]
  else if c =? 13 then [92; 114]
  else if c =? 9 then [92; 116]
  else if c =? 8 then [92; 98]
  else if c =? 12 then [92; 102]
  else if (32 <=? c) && (c <=? 126) then [c]
  else if c <? 65536 then [92; 117] ++ hex4 c
  else [92; 117] ++
       hex4 (N.lor 55296 (N.land (N.shiftr (c - 65536) 10) 1023)) ++
       [92; 117] ++ hex4 (N.lor 56320 (N.land (c - 65536) 1023)).

Definition encode_basestring_ascii (s : pystr) : pystr :=
  [34] ++ concat (map escape_char s) ++ [34].

(** A line break followed by four spaces for each level of nesting. *)
Definition newline_indent (depth : nat) : pystr :=
  10 :: repeat 32 (4 * depth).

(** The encoder with [indent=4], at nesting depth [depth]. *)
Fixpoint json_encode (depth : nat) (v : JSON) : pystr :=
  match v with
  | JString s => encode_basestring_ascii s
  | JBool true => py "true"
  | JBool false => py "false"
  | JArray [] => py "[]"
  | JArray (x :: xs) =>
      py "[" ++ newline_indent (S depth) ++ json_encode (S depth) x ++
      (fix rest (xs : list JSON) : pystr :=
         match xs with
         | [] => []
         | y :: ys =>
             py "," ++ newline_indent (S depth) ++ json_encode (S depth) y ++
             rest ys
         end) xs ++
      newline_indent depth ++ py "]"
  | JObject [] => py "{}"
  | JObject ((k, x) :: kxs) =>
      py "{" ++ newline_indent (S depth) ++
      encode_basestring_ascii k ++ py ": " ++ json_encode (S depth) x ++
      (fix rest (kxs : list (pystr * JSON)) : pystr :=
         match kxs with
         | [] => []
         | (k', y) :: kys =>
             py "," ++ newline_indent (S depth) ++
             encode_basestring_ascii k' ++ py ": " ++
             json_encode (S depth) y ++ rest kys
         end) kxs ++
      newline_indent depth ++ py "}"
  end.

(** The dictionary of lines 45-55 as the encoder sees it, keys in the order
    in which they were inserted. *)
Definition field_to_json (fd : FormField) : JSON :=
  JObject
    [ (py "name", JString (name fd));
      (py "type", JString (type fd));
      (py "autocomplete", JString (autocomplete fd));
      (py "required", JBool (required fd));
      (py "readonly", JBool (readonly fd));
      (py "disabled", JBool (disabled fd));
      (py "value", JString (value fd));
      (py "placeholder", JString (placeholder fd));
      (py "vulnerabilities", JArray (map JString (vulnerabilities fd))) ].

Definition json_dump (results : list FormField) : pystr :=
  json_encode 0 (JArray (map field_to_json results)).

(** [save_results] (lines 99-113): the file and an info record, or an
    error record when opening or writing fails.  What a failed write leaves
    on disk is not recorded. *)
Definition save_results (env : Env) (results : list FormField)
    (filename : pystr) (w : World) : World :=
  match IOError_of env filename with
  | None =>
      logging_log INFO (py "Results saved to " ++ filename)
        {| log_records := log_records w;
           logger_level := logger_level w;
           stdout := stdout w;
           requests_sent := requests_sent w;
           files_written :=
             files_written w ++ [(filename, json_dump results)] |}
  | Some e =>
      logging_log ERROR
        (py "Error saving results to " ++ filename ++ py ": " ++ e) w
  end.

(** *** [main] (lines 116-151) *)

(** The parsed command line: [args.url], [args.output] ([None] without
    [-o]) and [args.verbose]. *)
Record Namespace : Type := mkNamespace {
  args_url : pystr;
  args_output : option pystr;
  args_verbose : bool
}.

(** [str(b)] for a boolean. *)
Definition str_of_bool (b : bool) : pystr :=
  if b then py "True" else py "False".

(** The six lines printed for one field (lines 138-143). *)
Definition print_field (env : Env) (w : World) (field : FormField) : World :=
  let w := print (py "  Field Name: " ++ name field) w in
  let w := print (py "    Type: " ++ type field) w in
  let w := print (py "    Autocomplete: " ++ autocomplete field) w in
  let w := print (py "    Required: " ++ str_of_bool (required field)) w in
  let w :=
    print (py "    Vulnerabilities: " ++
           match vulnerabilities field with
           | [] => py "None"
           | _ :: _ => str_of_list env (vulnerabilities field)
           end) w in
  print (repeat 45 20) w.

(** [main], from the parsed arguments on; the number returned is the exit
    status of the process (1 for [sys.exit(1)], 0 when [main] returns). *)
Definition main (env : Env) (args : Namespace) (w : World) : N * World :=
  if negb (startswith (args_url args) (py "http://")) &&
     negb (startswith (args_url args) (py "https://"))
  then (1, print (py "Error: URL must start with http:// or https://") w)
  else
    let w := if args_verbose args then setLevel DEBUG w else w in
    let '(html_content, w) := fetch_html_content env (args_url args) w in
    match html_content with
    | Some ((_ :: _) as html) =>
        let '(results, w) :=
          run_logging
            (analyze_form_fields (html_parser env) html (args_url args))
            w in
        match results with
        | _ :: _ =>
            let w := print (py "Form field analysis results:") w in
            let w := foldl (print_field env) w results in
            match args_output args with
            | Some ((_ :: _) as filename) =>
                (0, save_results env results filename w)
            | _ => (0, w)
            end
        | [] => (0, print (py "No vulnerable form fields found.") w)
        end
    | _ =>
        (0, print (py "Failed to fetch HTML content. Check the URL and your network connection.") w)
    end.

(** ** Further notions and samples *)

(** The record has at least one finding (the test of line 71). *)
Definition has_findings (fd : FormField) : bool :=
  match vulnerabilities fd with
  | [] => false
  | _ :: _ => true
  end.

(** The number of tags in a tree, the root included. *)
Fixpoint tag_size (t : Tag) : nat :=
  match t with
  | mkTag _ _ cs =>
      S ((fix total (cs : list (pystr + Tag)) : nat :=
            match cs with
            | [] => 0%nat
            | inl _ :: cs' => total cs'
            | inr c :: cs' => (tag_size c + total cs')%nat
            end) cs)
  end.

(** Induction on a tree: a property holds of a tag when it holds of each
    of the tags among its children. *)
Fixpoint Tag_children_ind (P : Tag -> Prop)
    (step : forall n a cs,
        Forall (fun c => match c with inl _ => True | inr x => P x end) cs ->
        P (mkTag n a cs))
    (t : Tag) {struct t} : P t :=
  match t with
  | mkTag n a cs =>
      step n a cs
        ((fix each (cs : list (pystr + Tag))
            : Forall (fun c => match c with inl _ => True | inr x => P x end)
                     cs :=
            match cs with
            | [] => @List.Forall_nil _ _
            | c :: cs' =>
                @List.Forall_cons _ _ c cs'
                  (match c return match c with
                                  | inl _ => True
                                  | inr x => P x
                                  end with
                   | inl _ => I
                   | inr x => Tag_children_ind P step x
                   end)
                  (each cs')
            end) cs)
  end.

(** [<input type="email" value="a@b.c@@@ not an address">] *)
Definition email_with_tail : Tag :=
  input_tag [(py "type", py "email");
             (py "value", py "a@b.c@@@ not an address")].

(** [<input type="number" value="-5">] *)
Definition minus_five : Tag :=
  input_tag [(py "type", py "number"); (py "value", py "-5")].

(** [<input type="password" required>] *)
Definition password_plain : Tag :=
  input_tag [(py "type", py "password"); (py "required", [])].

(** A page whose one form holds text only. *)
Definition empty_form_page : Tag :=
  mkTag (py "[document]") ∅
    [inr (mkTag (py "form") ∅ [inl (py "Nothing to fill in.")])].

(** A page with a form inside a form, the inner one holding one input. *)
Definition inner_form : Tag := mkTag (py "form") ∅ [inr bad_email].
Definition outer_form : Tag := mkTag (py "form") ∅ [inr inner_form].
Definition nested_forms_page : Tag :=
  mkTag (py "[document]") ∅ [inr outer_form].

(** The test of line 123, the other way round. *)
Definition scheme_accepted (url : pystr) : bool :=
  startswith url (py "http://") || startswith url (py "https://").

(** The page text the program goes on with: the text of the response when
    there is one and its status is not 4xx or 5xx. *)
Definition page_text (env : Env) (url : pystr) : option pystr :=
  match requests_get env url with
  | Response status_code text _ =>
      if (400 <=? status_code) && (status_code <? 600) then None
      else Some text
  | RequestException _ => None
  end.

(** The records of the analysis, when [main] gets as far as running it:
    the page came back with a text that is not empty. *)
Definition analysed (env : Env) (url : pystr) : option (list FormField) :=
  match page_text env url with
  | Some ((_ :: _) as html) =>
      Some (map check_field (visited_inputs (html_parser env html)))
  | _ => None
  end.

(** What the analyzer logs in that case. *)
Definition analysis_log (env : Env) (url : pystr) : list LogRecord :=
  match page_text env url with
  | Some ((_ :: _) as html) =>
      snd (analyze_form_fields (html_parser env) html url [])
  | _ => []
  end.

(** What a failing fetch logs. *)
Definition fetch_log (env : Env) (url : pystr) : list LogRecord :=
  match requests_get env url with
  | Response s _ e =>
      if (400 <=? s) && (s <? 600)
      then [(ERROR, py "Error fetching URL " ++ url ++ py ": " ++ e)]
      else []
  | RequestException e =>
      [(ERROR, py "Error fetching URL " ++ url ++ py ": " ++ e)]
  end.

(** The file name [main] saves to: the one given with [-o], if it is not
    empty and the analysis returned at least one record. *)
Definition save_target (env : Env) (args : Namespace) : option pystr :=
  match analysed env (args_url args), args_output args with
  | Some (_ :: _), Some ((_ :: _) as filename) => Some filename
  | _, _ => None
  end.


(** Induction on a JSON value: a property holds of a list when it holds of
    its items, and of a dictionary when it holds of its values. *)
Fixpoint JSON_nested_ind (P : JSON -> Prop)
    (Hstring : forall s, P (JString s))
    (Hbool : forall b, P (JBool b))
    (Harray : forall items, Forall P items -> P (JArray items))
    (Hobject : forall members,
        Forall (fun kv => P (snd kv)) members -> P (JObject members))
    (v : JSON) {struct v} : P v :=
  match v with
  | JString s => Hstring s
  | JBool b => Hbool b
  | JArray items =>
      Harray items
        ((fix each (l : list JSON) : Forall P l :=
            match l with
            | [] => @List.Forall_nil _ _
            | x :: l' =>
                @List.Forall_cons _ _ x l'
                  (JSON_nested_ind P Hstring Hbool Harray Hobject x)
                  (each l')
            end) items)
  | JObject members =>
      Hobject members
        ((fix each (l : list (pystr * JSON))
            : Forall (fun kv => P (snd kv)) l :=
            match l with
            | [] => @List.Forall_nil _ _
            | kv :: l' =>
                @List.Forall_cons _ (fun kv => P (snd kv)) kv l'
                  (JSON_nested_ind P Hstring Hbool Harray Hobject (snd kv))
                  (each l')
            end) members)
  end.

(** A printable ASCII character or a line feed. *)
Definition plain_ascii (c : N) : Prop := c = 10 \/ (32 <= c /\ c <= 126).

(** An environment in which the page of every URL is one form with an
    email field and a hidden field, and every write goes through. *)
Definition sample_page : Tag :=
  mkTag (py "[document]") ∅
    [inr (mkTag (py "form") ∅ [inr bad_email; inr hidden_token])].

Definition sample_env : Env :=
  {| html_parser := fun _ => sample_page;
     requests_get := fun _ => Response 200 (py "<form>...</form>") [];
     IOError_of := fun _ => None;
     str_of_list := fun l => concat l |}.

(** The same, on a disk that refuses every write. *)
Definition read_only_env : Env :=
  {| html_parser := fun _ => sample_page;
     requests_get := fun _ => Response 200 (py "<form>...</form>") [];
     IOError_of := fun _ => Some (py "[Errno 30] Read-only file system");
     str_of_list := fun l => concat l |}.



Definition sample_args : Namespace :=
  {| args_url := py "http://x/"; args_output := Some (py "out.json");
     args_verbose := false |}.

(** The six lines of one field, as [print_field] prints them. *)
Definition field_lines (env : Env) (field : FormField) : list pystr :=
  [ py "  Field Name: " ++ name field;
    py "    Type: " ++ type field;
    py "    Autocomplete: " ++ autocomplete field;
    py "    Required: " ++ str_of_bool (required field);
    py "    Vulnerabilities: " ++
      match vulnerabilities field with
      | [] => py "None"
      | _ :: _ => str_of_list env (vulnerabilities field)
      end;
    py "--------------------" ].

(** The three one-line messages of [main]. *)
Definition SCHEME_ERROR : pystr :=
  py "Error: URL must start with http:// or https://".
Definition NO_FIELDS : pystr := py "No vulnerable form fields found.".
Definition FETCH_FAILED : pystr :=
  py "Failed to fetch HTML content. Check the URL and your network connection.".

(** * Properties *)

(** ** What the matcher decides *)

Lemma lang_nonempty (i : item) (rest : pattern) : ~ lang (i :: rest) [].
Proof.
  destruct i as [cs [|]]; simpl.
  - intros (c & v & Hw & _). discriminate.
  - intros (u & v & Hw & Hu & _). destruct u; [congruence | discriminate].
Qed.

Lemma match_here_sound (s : pystr) :
  forall p, match_here s p = true -> matches_at_start p s.
Proof.
  induction s as [|c s' IH]; intros p H.
  - destruct p as [|[cs q] rest]; [|discriminate].
    exists [], []. split; reflexivity.
  - destruct p as [|[cs q] rest].
    + exists [], (c :: s'). split; reflexivity.
    + simpl in H. apply andb_true_iff in H as [Hc H].
      destruct q.
      * destruct (IH _ H) as (w & r & -> & Hw).
        exists (c :: w), r. split; [reflexivity|].
        simpl. eauto.
      * apply orb_true_iff in H as [H|H].
        -- destruct (IH _ H) as (w & r & -> & Hw).
           simpl in Hw. destruct Hw as (u & v & -> & Hu & Hall & Hv).
           exists (c :: u ++ v), r. split; [reflexivity|].
           simpl. exists (c :: u), v.
           repeat split; [discriminate | by constructor | done].
        -- destruct (IH _ H) as (w & r & -> & Hw).
           exists (c :: w), r. split; [reflexivity|].
           simpl. exists [c], w.
           repeat split; [discriminate | by repeat constructor | done].
Qed.

Lemma match_here_complete (s : pystr) :
  forall p, matches_at_start p s -> match_here s p = true.
Proof.
  induction s as [|c s' IH]; intros p (w & r & Hs & Hw).
  - destruct p as [|i rest]; [reflexivity|].
    symmetry in Hs. apply app_eq_nil in Hs as [-> _].
    by apply lang_nonempty in Hw.
  - destruct p as [|[cs q] rest]; [reflexivity|].
    simpl. destruct q; simpl in Hw.
    + destruct Hw as (c0 & v & -> & Hc & Hv).
      injection Hs as <- ->. rewrite Hc. simpl.
      apply IH. by exists v, r.
    + destruct Hw as (u & v & -> & Hu & Hall & Hv).
      destruct u as [|c0 u']; [congruence|].
      injection Hs as <- ->.
      apply Forall_cons in Hall as [Hc Hall]. rewrite Hc. simpl.
      apply orb_true_iff.
      destruct u' as [|c1 u''].
      * right. apply IH. by exists v, r.
      * left. apply IH. exists ((c1 :: u'') ++ v), r.
        split; [reflexivity|]. simpl.
        exists (c1 :: u''), v. repeat split; [discriminate | done | done].
Qed.

Lemma re_match_spec (p : pattern) (s : pystr) :
  re_match p s = true <-> matches_at_start p s.
Proof.
  split; [apply match_here_sound | apply match_here_complete].
Qed.

Lemma re_search_spec (p : pattern) (s : pystr) :
  re_search p s = true <-> matches_somewhere p s.
Proof.
  induction s as [|c s' IH]; cbn [re_search].
  - rewrite orb_false_r. split.
    + intros H. apply match_here_sound in H as (w & r & Hs & Hw).
      by exists [], w, r.
    + intros (pre & w & r & Hs & Hw).
      symmetry in Hs. apply app_eq_nil in Hs as [-> Hs].
      apply match_here_complete. exists w, r. split; [by symmetry | done].
  - rewrite orb_true_iff, IH. split.
    + intros [H|(pre & w & r & -> & Hw)].
      * apply match_here_sound in H as (w & r & Hs & Hw).
        exists [], w, r. by split.
      * exists (c :: pre), w, r. by split.
    + intros (pre & w & r & Hs & Hw). destruct pre as [|c0 pre'].
      * left. apply match_here_complete. exists w, r. by split.
      * injection Hs as <- ->. right. by exists pre', w, r.
Qed.

Lemma Forall_not_at (u : pystr) :
  Forall (fun c => charset_mem (NotLit 64) c = true) u <-> 64 ∉ u.
Proof.
  induction u as [|c u IH].
  - split; [intros _; apply not_elem_of_nil | constructor].
  - rewrite Forall_cons, not_elem_of_cons, IH. simpl.
    rewrite negb_true_iff, N.eqb_neq. intuition congruence.
Qed.

Lemma lang_EMAIL_RE (w : pystr) : lang EMAIL_RE w <-> email_shaped w.
Proof.
  unfold email_shaped, EMAIL_RE. simpl. split.
  - intros (a & v1 & -> & Ha & Halla & c1 & v2 & -> & Hc1 & b & v3 & -> &
            Hb & Hallb & c2 & v4 & -> & Hc2 & c & v5 & -> & Hc & Hallc & ->).
    apply N.eqb_eq in Hc1 as ->. apply N.eqb_eq in Hc2 as ->.
    rewrite app_nil_r. exists a, b, c.
    rewrite <- !Forall_not_at. done.
  - intros (a & b & c & -> & Ha & Hb & Hc & Hna & Hnb & Hnc).
    rewrite <- Forall_not_at in Hna, Hnb, Hnc.
    exists a, (64 :: b ++ 46 :: c). repeat split; [done..|].
    exists 64, (b ++ 46 :: c). repeat split.
    exists b, (46 :: c). repeat split; [done..|].
    exists 46, c. repeat split.
    exists c, []. rewrite app_nil_r. done.
Qed.

Lemma matches_at_start_EMAIL_RE (s : pystr) :
  matches_at_start EMAIL_RE s <->
  exists w r, s = w ++ r /\ email_shaped w.
Proof.
  unfold matches_at_start. split.
  - intros (w & r & Hs & Hw). exists w, r. by rewrite <- lang_EMAIL_RE.
  - intros (w & r & Hs & Hw). exists w, r. by rewrite lang_EMAIL_RE.
Qed.

(** ** What [str.isdigit] decides *)

Lemma isdigit_spec (s : pystr) :
  isdigit s = true <-> composed_of Py_UNICODE_ISDIGIT s.
Proof.
  unfold composed_of. destruct s as [|c s'].
  - simpl. split; [discriminate | intros [H _]; congruence].
  - unfold isdigit. rewrite forallb_forall, Forall_forall.
    split.
    + intros H. split; [discriminate|]. intros x Hx.
      apply H. by apply list_elem_of_In.
    + intros [_ H] x Hx. apply H. by apply list_elem_of_In.
Qed.

Lemma decimal_is_digit (c : N) :
  Py_UNICODE_ISDECIMAL c = true -> Py_UNICODE_ISDIGIT c = true.
Proof.
  unfold Py_UNICODE_ISDECIMAL, Py_UNICODE_ISDIGIT. intros ->. reflexivity.
Qed.

Lemma composed_of_decimal_digit (s : pystr) :
  composed_of Py_UNICODE_ISDECIMAL s -> composed_of Py_UNICODE_ISDIGIT s.
Proof.
  intros [Hne Hall]. split; [done|].
  eapply Forall_impl; [exact Hall|]. apply decimal_is_digit.
Qed.

(** ** The messages are pairwise different *)

Lemma AUTOCOMPLETE_MSG_head (ty : pystr) : hd 0 (AUTOCOMPLETE_MSG ty) = 65.
Proof. reflexivity. Qed.

(** Two closed strings differ: evaluate both and look. *)
Ltac strings_differ :=
  let H := fresh in intros H; vm_compute in H; discriminate H.

(** A closed string differs from the autocomplete message, whose middle is
    not known: the first characters already differ. *)
Ltac differs_at_head :=
  let H := fresh in
  intros H; apply (f_equal (hd 0)) in H;
  rewrite AUTOCOMPLETE_MSG_head in H; vm_compute in H; discriminate H.

Lemma EMAIL_MSG_neq_NUMERIC_MSG : EMAIL_MSG <> NUMERIC_MSG.
Proof. strings_differ. Qed.

Lemma EMAIL_MSG_neq_REQUIRED_MSG : EMAIL_MSG <> REQUIRED_MSG.
Proof. strings_differ. Qed.

Lemma NUMERIC_MSG_neq_REQUIRED_MSG : NUMERIC_MSG <> REQUIRED_MSG.
Proof. strings_differ. Qed.

Lemma EMAIL_MSG_neq_AUTOCOMPLETE_MSG (ty : pystr) :
  EMAIL_MSG <> AUTOCOMPLETE_MSG ty.
Proof. differs_at_head. Qed.

Lemma NUMERIC_MSG_neq_AUTOCOMPLETE_MSG (ty : pystr) :
  NUMERIC_MSG <> AUTOCOMPLETE_MSG ty.
Proof. differs_at_head. Qed.

Lemma REQUIRED_MSG_neq_AUTOCOMPLETE_MSG (ty : pystr) :
  REQUIRED_MSG <> AUTOCOMPLETE_MSG ty.
Proof. differs_at_head. Qed.

(** ** The rules read the record but not its findings *)

Lemma email_rule_append (fd : FormField) (m : pystr) :
  email_rule (append_vulnerability fd m) = email_rule fd.
Proof. reflexivity. Qed.

Lemma numeric_rule_append (fd : FormField) (m : pystr) :
  numeric_rule (append_vulnerability fd m) = numeric_rule fd.
Proof. reflexivity. Qed.

Lemma autocomplete_rule_append (fd : FormField) (m : pystr) :
  autocomplete_rule (append_vulnerability fd m) = autocomplete_rule fd.
Proof. reflexivity. Qed.

Lemma required_rule_append (fd : FormField) (m : pystr) :
  required_rule (append_vulnerability fd m) = required_rule fd.
Proof. reflexivity. Qed.

(** The conditions of the four rules, as propositions. *)

Lemma email_rule_true (fd : FormField) :
  email_rule fd = true <->
  type fd = py "email" /\ value fd <> py "N/A" /\
  ~ matches_at_start EMAIL_RE (value fd).
Proof.
  unfold email_rule.
  rewrite !andb_true_iff, !bool_decide_eq_true, negb_true_iff.
  rewrite <- re_match_spec, not_true_iff_false. tauto.
Qed.

Lemma numeric_rule_true (fd : FormField) :
  numeric_rule fd = true <->
  (type fd = py "number" \/ type fd = py "tel") /\ value fd <> py "N/A" /\
  ~ composed_of Py_UNICODE_ISDIGIT (value fd).
Proof.
  unfold numeric_rule.
  rewrite !andb_true_iff, !bool_decide_eq_true, negb_true_iff.
  rewrite <- isdigit_spec, not_true_iff_false.
  rewrite !elem_of_cons, elem_of_nil. tauto.
Qed.

Lemma autocomplete_rule_true (fd : FormField) :
  autocomplete_rule fd = true <->
  (type fd = py "password" \/ type fd = py "credit-card" \/
   type fd = py "cvv") /\ autocomplete fd <> py "off".
Proof.
  unfold autocomplete_rule.
  rewrite !andb_true_iff, !bool_decide_eq_true.
  rewrite !elem_of_cons, elem_of_nil. tauto.
Qed.

Lemma required_rule_true (fd : FormField) :
  required_rule fd = true <->
  (type fd <> py "hidden" /\ type fd <> py "submit" /\
   type fd <> py "button") /\ required fd = false.
Proof.
  unfold required_rule.
  rewrite !andb_true_iff, !bool_decide_eq_true, negb_true_iff.
  rewrite !not_elem_of_cons. pose proof (not_elem_of_nil (type fd)). tauto.
Qed.

(** ** The record of one input *)

(** The three checks leave every key but ['vulnerabilities'] as line 45-55
    set it, and leave there the findings of the rules. *)
Lemma check_field_unfold (t : Tag) :
  check_field t =
  {| name := name (new_field_data t);
     type := type (new_field_data t);
     autocomplete := autocomplete (new_field_data t);
     required := required (new_field_data t);
     readonly := readonly (new_field_data t);
     disabled := disabled (new_field_data t);
     value := value (new_field_data t);
     placeholder := placeholder (new_field_data t);
     vulnerabilities := findings (new_field_data t) |}.
Proof.
  unfold check_field, check_validation, check_autocomplete, check_required,
    findings.
  set (fd := new_field_data t).
  destruct (email_rule fd) eqn:E1; [|destruct (numeric_rule fd) eqn:E2];
    rewrite ?autocomplete_rule_append;
    (destruct (autocomplete_rule fd) eqn:E3);
    rewrite ?required_rule_append;
    (destruct (required_rule fd) eqn:E4); reflexivity.
Qed.

Lemma email_rule_check_field (t : Tag) :
  email_rule (check_field t) = email_rule (new_field_data t).
Proof. rewrite check_field_unfold. reflexivity. Qed.

Lemma numeric_rule_check_field (t : Tag) :
  numeric_rule (check_field t) = numeric_rule (new_field_data t).
Proof. rewrite check_field_unfold. reflexivity. Qed.

Lemma autocomplete_rule_check_field (t : Tag) :
  autocomplete_rule (check_field t) = autocomplete_rule (new_field_data t).
Proof. rewrite check_field_unfold. reflexivity. Qed.

Lemma required_rule_check_field (t : Tag) :
  required_rule (check_field t) = required_rule (new_field_data t).
Proof. rewrite check_field_unfold. reflexivity. Qed.

Lemma type_check_field (t : Tag) :
  type (check_field t) = type (new_field_data t).
Proof. rewrite check_field_unfold. reflexivity. Qed.

Lemma vulnerabilities_check_field (t : Tag) :
  vulnerabilities (check_field t) = findings (check_field t).
Proof.
  unfold findings.
  rewrite email_rule_check_field, numeric_rule_check_field,
    autocomplete_rule_check_field, required_rule_check_field,
    type_check_field.
  rewrite check_field_unfold. reflexivity.
Qed.

Lemma findings_unfold (fd : FormField) :
  findings fd =
  (if email_rule fd then [EMAIL_MSG]
   else if numeric_rule fd then [NUMERIC_MSG] else []) ++
  (if autocomplete_rule fd then [AUTOCOMPLETE_MSG (type fd)] else []) ++
  (if required_rule fd then [REQUIRED_MSG] else []).
Proof. reflexivity. Qed.

(** Which rule a message in the findings comes from: with the messages
    known to differ, go through the sixteen outcomes of the four rules. *)
Ltac by_rule_outcomes fd :=
  pose proof EMAIL_MSG_neq_NUMERIC_MSG;
  pose proof EMAIL_MSG_neq_REQUIRED_MSG;
  pose proof NUMERIC_MSG_neq_REQUIRED_MSG;
  pose proof (EMAIL_MSG_neq_AUTOCOMPLETE_MSG (type fd));
  pose proof (NUMERIC_MSG_neq_AUTOCOMPLETE_MSG (type fd));
  pose proof (REQUIRED_MSG_neq_AUTOCOMPLETE_MSG (type fd));
  unfold findings; rewrite !elem_of_app;
  destruct (email_rule fd), (numeric_rule fd), (autocomplete_rule fd),
    (required_rule fd);
  rewrite ?elem_of_cons, ?elem_of_nil; intuition congruence.

Lemma EMAIL_MSG_in_findings (fd : FormField) :
  EMAIL_MSG ∈ findings fd <-> email_rule fd = true.
Proof. by_rule_outcomes fd. Qed.

Lemma NUMERIC_MSG_in_findings (fd : FormField) :
  NUMERIC_MSG ∈ findings fd <->
  email_rule fd = false /\ numeric_rule fd = true.
Proof. by_rule_outcomes fd. Qed.

Lemma AUTOCOMPLETE_MSG_in_findings (fd : FormField) :
  AUTOCOMPLETE_MSG (type fd) ∈ findings fd <-> autocomplete_rule fd = true.
Proof. by_rule_outcomes fd. Qed.

Lemma REQUIRED_MSG_in_findings (fd : FormField) :
  REQUIRED_MSG ∈ findings fd <-> required_rule fd = true.
Proof. by_rule_outcomes fd. Qed.

(** ** The two loops *)

Lemma inputs_loop_spec (url : pystr) (inputs : list Tag) :
  forall (results : list FormField) (log : list LogRecord),
    inputs_loop url inputs results log =
    (results ++ map check_field inputs, log ++ field_notices url inputs).
Proof.
  induction inputs as [|input_field rest IH]; intros results log.
  - unfold field_notices. simpl. unfold ret. by rewrite !app_nil_r.
  - cbn [inputs_loop]. unfold bind, field_notices. cbn [map concat].
    fold (field_notices url rest).
    destruct (vulnerabilities (check_field input_field)) as [|m ms];
      unfold ret, logging_warning; rewrite IH;
      by rewrite <- !app_assoc.
Qed.

Lemma field_notices_app (url : pystr) (xs ys : list Tag) :
  field_notices url (xs ++ ys) = field_notices url xs ++ field_notices url ys.
Proof. unfold field_notices. by rewrite map_app, concat_app. Qed.

Lemma forms_loop_spec (url : pystr) (forms : list Tag) :
  forall (results : list FormField) (log : list LogRecord),
    forms_loop url forms results log =
    (results ++
       map check_field
         (concat (map (fun form => find_all form (py "input")) forms)),
     log ++
       field_notices url
         (concat (map (fun form => find_all form (py "input")) forms))).
Proof.
  induction forms as [|form rest IH]; intros results log.
  - unfold field_notices. simpl. unfold ret. by rewrite !app_nil_r.
  - cbn [forms_loop]. unfold bind. rewrite inputs_loop_spec, IH.
    cbn [map concat]. rewrite map_app, field_notices_app.
    by rewrite <- !app_assoc.
Qed.

(** The function, in one equation: without forms, one warning and no
    result; otherwise the record of every visited input, in order, and one
    warning for each record that has findings. *)
Lemma analyze_soup_spec (soup : Tag) (url : pystr) (log : list LogRecord) :
  analyze_soup soup url log =
  match find_all soup (py "form") with
  | [] => ([], log ++ [(WARNING, py "No forms found on " ++ url)])
  | _ :: _ =>
      (map check_field (visited_inputs soup),
       log ++ field_notices url (visited_inputs soup))
  end.
Proof.
  unfold analyze_soup, visited_inputs.
  destruct (find_all soup (py "form")) as [|form forms]; [reflexivity|].
  by rewrite forms_loop_spec.
Qed.

(** Every record the function returns is [check_field] of an input that
    lies in a form of the page, so that what is shown of [check_field]
    below holds of every record returned. *)
Lemma analyze_form_fields_results (BeautifulSoup : pystr -> Tag)
    (html_content url : pystr) (log : list LogRecord) :
  fst (analyze_form_fields BeautifulSoup html_content url log) =
  map check_field (visited_inputs (BeautifulSoup html_content)).
Proof.
  unfold analyze_form_fields. rewrite analyze_soup_spec.
  unfold visited_inputs.
  destruct (find_all (BeautifulSoup html_content) (py "form")); reflexivity.
Qed.

(** ** The sample inputs, evaluated *)

Lemma check_field_at_sign_first :
  check_field at_sign_first =
  {| name := py "N/A"; type := py "email"; autocomplete := py "off";
     required := false; readonly := false; disabled := false;
     value := py "@a@b.c"; placeholder := py "N/A";
     vulnerabilities := [EMAIL_MSG; REQUIRED_MSG] |}.
Proof. vm_compute. reflexivity. Qed.

Lemma check_field_superscript_two :
  check_field superscript_two =
  {| name := py "N/A"; type := py "number"; autocomplete := py "off";
     required := false; readonly := false; disabled := false;
     value := [178]; placeholder := py "N/A";
     vulnerabilities := [REQUIRED_MSG] |}.
Proof. vm_compute. reflexivity. Qed.

Lemma check_field_empty_number :
  check_field empty_number =
  {| name := py "N/A"; type := py "number"; autocomplete := py "off";
     required := false; readonly := false; disabled := false;
     value := []; placeholder := py "N/A";
     vulnerabilities := [NUMERIC_MSG; REQUIRED_MSG] |}.
Proof. vm_compute. reflexivity. Qed.

Lemma check_field_year_number :
  check_field year_number =
  {| name := py "N/A"; type := py "number"; autocomplete := py "off";
     required := false; readonly := false; disabled := false;
     value := py "2024"; placeholder := py "N/A";
     vulnerabilities := [REQUIRED_MSG] |}.
Proof. vm_compute. reflexivity. Qed.

Lemma check_field_bad_email :
  check_field bad_email =
  {| name := py "N/A"; type := py "email"; autocomplete := py "off";
     required := false; readonly := false; disabled := false;
     value := py "bad-email"; placeholder := py "N/A";
     vulnerabilities := [EMAIL_MSG; REQUIRED_MSG] |}.
Proof. vm_compute. reflexivity. Qed.

Lemma check_field_password_on :
  check_field password_on =
  {| name := py "N/A"; type := py "password"; autocomplete := py "on";
     required := false; readonly := false; disabled := false;
     value := py "N/A"; placeholder := py "N/A";
     vulnerabilities := [AUTOCOMPLETE_MSG (py "password"); REQUIRED_MSG] |}.
Proof. vm_compute. reflexivity. Qed.

(** ** The claims *)

(** C1, as the code has it.  The message "Potential missing email
    validation." is among the findings of an input exactly when its type is
    "email", its value is not "N/A" and the pattern [^@]+@[^@]+\.[^@]+ does
    not match at position 0 of the value ([re.match]: anchored at the start
    only, free at the end).  A match that begins later does not count: every
    email input whose value begins with '@' gets the message. *)
Theorem email_rule_anchored_at_start (t : Tag) :
  (py "Potential missing email validation." ∈ vulnerabilities (check_field t)
   <->
   type (check_field t) = py "email" /\
   value (check_field t) <> py "N/A" /\
   ~ matches_at_start EMAIL_RE (value (check_field t))) /\
  (forall rest : pystr,
     type (check_field t) = py "email" ->
     value (check_field t) = 64 :: rest ->
     py "Potential missing email validation."
       ∈ vulnerabilities (check_field t)).
Proof.
  change (py "Potential missing email validation.") with EMAIL_MSG.
  assert (Hiff : EMAIL_MSG ∈ vulnerabilities (check_field t) <->
    type (check_field t) = py "email" /\
    value (check_field t) <> py "N/A" /\
    ~ matches_at_start EMAIL_RE (value (check_field t))).
  { rewrite vulnerabilities_check_field, EMAIL_MSG_in_findings.
    apply email_rule_true. }
  split; [exact Hiff|].
  intros rest Hty Hval. apply Hiff. rewrite Hval.
  split; [exact Hty|]. split; [discriminate|].
  rewrite <- re_match_spec. discriminate.
Qed.

(** The second part at [<input type="email" value="@a@b.c">]. *)
Lemma email_rule_anchored_at_start_witness :
  py "Potential missing email validation."
    ∈ vulnerabilities (check_field at_sign_first).
Proof.
  apply (proj2 (email_rule_anchored_at_start at_sign_first) (py "a@b.c"));
    vm_compute; reflexivity.
Defined.

(** C1 as the specification words it (an unanchored, substring match) fails
    on [<input type="email" value="@a@b.c">]: the value holds the match
    "a@b.c" from position 1 on, yet the input gets the message. *)
Lemma email_rule_unanchored_counterexample :
  ~ (py "Potential missing email validation."
       ∈ vulnerabilities (check_field at_sign_first)
     <->
     type (check_field at_sign_first) = py "email" /\
     value (check_field at_sign_first) <> py "N/A" /\
     ~ matches_somewhere EMAIL_RE (value (check_field at_sign_first))).
Proof.
  rewrite check_field_at_sign_first. cbn [vulnerabilities type value].
  intros [H _]. destruct H as (_ & _ & H).
  - apply list_elem_of_here.
  - apply H. apply re_search_spec. vm_compute. reflexivity.
Qed.

(** C2, as the code has it.  The message "Potential missing numerical
    validation." is among the findings exactly when rule 1 did not trigger,
    the type is "number" or "tel", the value is not "N/A" and the value is
    not a non-empty string of digits in the sense of [str.isdigit] (Unicode
    Numeric_Type Decimal or Digit: the decimal digits of every script and
    also superscript, subscript and circled digits).  The empty value
    triggers the rule; a value made of decimal digits only never does. *)
Theorem numeric_rule_isdigit (t : Tag) :
  (py "Potential missing numerical validation."
     ∈ vulnerabilities (check_field t)
   <->
   (py "Potential missing email validation."
      ∉ vulnerabilities (check_field t)) /\
   (type (check_field t) = py "number" \/ type (check_field t) = py "tel") /\
   value (check_field t) <> py "N/A" /\
   ~ composed_of Py_UNICODE_ISDIGIT (value (check_field t))) /\
  (type (check_field t) = py "number" ->
   value (check_field t) = [] ->
   py "Potential missing numerical validation."
     ∈ vulnerabilities (check_field t)) /\
  (composed_of Py_UNICODE_ISDECIMAL (value (check_field t)) ->
   py "Potential missing numerical validation."
     ∉ vulnerabilities (check_field t)).
Proof.
  change (py "Potential missing numerical validation.") with NUMERIC_MSG.
  change (py "Potential missing email validation.") with EMAIL_MSG.
  assert (Hiff : NUMERIC_MSG ∈ vulnerabilities (check_field t) <->
    (EMAIL_MSG ∉ vulnerabilities (check_field t)) /\
    (type (check_field t) = py "number" \/ type (check_field t) = py "tel") /\
    value (check_field t) <> py "N/A" /\
    ~ composed_of Py_UNICODE_ISDIGIT (value (check_field t))).
  { rewrite vulnerabilities_check_field, NUMERIC_MSG_in_findings,
      EMAIL_MSG_in_findings, numeric_rule_true.
    destruct (email_rule (check_field t)); intuition congruence. }
  split; [exact Hiff|]. split.
  - intros Hty Hval. apply Hiff. rewrite Hval.
    split; [|split; [by left | split; [discriminate|]]].
    + rewrite vulnerabilities_check_field, EMAIL_MSG_in_findings,
        email_rule_true.
      intros [Hty' _]. rewrite Hty in Hty'. vm_compute in Hty'.
      discriminate Hty'.
    + intros [Hne _]. by apply Hne.
  - intros Hdec Hin. apply Hiff in Hin as (_ & _ & _ & Hnot).
    apply Hnot. by apply composed_of_decimal_digit.
Qed.

(** The last two parts, at the empty value and at the value "2024". *)
Lemma numeric_rule_isdigit_witness :
  (py "Potential missing numerical validation."
     ∈ vulnerabilities (check_field empty_number)) /\
  (py "Potential missing numerical validation."
     ∉ vulnerabilities (check_field year_number)).
Proof.
  split.
  - apply (proj1 (proj2 (numeric_rule_isdigit empty_number)));
      vm_compute; reflexivity.
  - apply (proj2 (proj2 (numeric_rule_isdigit year_number))).
    rewrite check_field_year_number. cbn [value].
    split; [discriminate|].
    repeat (constructor; [reflexivity|]). constructor.
Defined.

(** C2 as the specification words it (decimal digit characters) fails on
    [<input type="number" value="²">]: U+00B2 is not a decimal digit (not
    even one of another script), rule 1 did not trigger, and yet the input
    does not get the message, because [str.isdigit] accepts superscripts. *)
Lemma numeric_rule_decimal_counterexample :
  ~ (py "Potential missing numerical validation."
       ∈ vulnerabilities (check_field superscript_two)
     <->
     (py "Potential missing email validation."
        ∉ vulnerabilities (check_field superscript_two)) /\
     (type (check_field superscript_two) = py "number" \/
      type (check_field superscript_two) = py "tel") /\
     value (check_field superscript_two) <> py "N/A" /\
     ~ composed_of Py_UNICODE_ISDECIMAL (value (check_field superscript_two))).
Proof.
  rewrite check_field_superscript_two. cbn [vulnerabilities type value].
  change (py "Potential missing numerical validation.") with NUMERIC_MSG.
  change (py "Potential missing email validation.") with EMAIL_MSG.
  intros [_ H].
  assert (Hin : NUMERIC_MSG ∈ [REQUIRED_MSG]).
  { apply H. split; [|split; [by left | split; [discriminate|]]].
    - rewrite elem_of_cons, elem_of_nil.
      pose proof EMAIL_MSG_neq_REQUIRED_MSG. tauto.
    - intros [_ Hall]. apply Forall_cons in Hall as [Hc _].
      vm_compute in Hc. discriminate Hc. }
  rewrite elem_of_cons, elem_of_nil in Hin.
  pose proof NUMERIC_MSG_neq_REQUIRED_MSG. tauto.
Qed.

(** C3.  The message "Autocomplete is enabled for sensitive field of type
    '<type>'.  This is generally discouraged", with the type of the field in
    place of <type> and two spaces before "This", is among the findings
    exactly when the type is "password", "credit-card" or "cvv" and the
    autocomplete value is not "off". *)
Theorem autocomplete_rule_iff (t : Tag) :
  py "Autocomplete is enabled for sensitive field of type '" ++
    type (check_field t) ++ py "'.  This is generally discouraged"
    ∈ vulnerabilities (check_field t)
  <->
  (type (check_field t) = py "password" \/
   type (check_field t) = py "credit-card" \/
   type (check_field t) = py "cvv") /\
  autocomplete (check_field t) <> py "off".
Proof.
  change (py "Autocomplete is enabled for sensitive field of type '" ++
          type (check_field t) ++ py "'.  This is generally discouraged")
    with (AUTOCOMPLETE_MSG (type (check_field t))).
  rewrite vulnerabilities_check_field, AUTOCOMPLETE_MSG_in_findings.
  apply autocomplete_rule_true.
Qed.

(** C4.  The message "Missing 'required' attribute. Consider adding for
    important fields" is among the findings exactly when the type is none of
    "hidden", "submit", "button" and the required flag is false, whatever
    rules 1 to 3 did; it occurs together with the message of rule 1, of
    rule 2 and of rule 3. *)
Theorem required_rule_iff :
  (forall t : Tag,
     py "Missing 'required' attribute. Consider adding for important fields"
       ∈ vulnerabilities (check_field t)
     <->
     (type (check_field t) <> py "hidden" /\
      type (check_field t) <> py "submit" /\
      type (check_field t) <> py "button") /\
     required (check_field t) = false) /\
  (exists t : Tag,
     vulnerabilities (check_field t) =
     [py "Potential missing email validation.";
      py "Missing 'required' attribute. Consider adding for important fields"])
  /\
  (exists t : Tag,
     vulnerabilities (check_field t) =
     [py "Potential missing numerical validation.";
      py "Missing 'required' attribute. Consider adding for important fields"])
  /\
  (exists t : Tag,
     vulnerabilities (check_field t) =
     [py "Autocomplete is enabled for sensitive field of type '" ++
        type (check_field t) ++ py "'.  This is generally discouraged";
      py "Missing 'required' attribute. Consider adding for important fields"]).
Proof.
  split; [|split; [|split]].
  - intros t.
    change (py "Missing 'required' attribute. Consider adding for important fields")
      with REQUIRED_MSG.
    rewrite vulnerabilities_check_field, REQUIRED_MSG_in_findings.
    apply required_rule_true.
  - exists bad_email. by rewrite check_field_bad_email.
  - exists empty_number. by rewrite check_field_empty_number.
  - exists password_on. by rewrite check_field_password_on.
Qed.

(** C5.  The findings of a field are the messages of the rules that
    triggered, in the order rule 1, rule 2 (not looked at when rule 1
    triggered), rule 3, rule 4; a field of type "email" with the value
    "bad-email" and no required attribute gets the message of rule 1 and
    then the message of rule 4. *)
Theorem vulnerabilities_in_rule_order (t : Tag) :
  vulnerabilities (check_field t) =
    (if email_rule (check_field t)
     then [py "Potential missing email validation."]
     else if numeric_rule (check_field t)
          then [py "Potential missing numerical validation."]
          else []) ++
    (if autocomplete_rule (check_field t)
     then [py "Autocomplete is enabled for sensitive field of type '" ++
           type (check_field t) ++ py "'.  This is generally discouraged"]
     else []) ++
    (if required_rule (check_field t)
     then [py "Missing 'required' attribute. Consider adding for important fields"]
     else []) /\
  (type (check_field t) = py "email" ->
   value (check_field t) = py "bad-email" ->
   required (check_field t) = false ->
   vulnerabilities (check_field t) =
   [py "Potential missing email validation.";
    py "Missing 'required' attribute. Consider adding for important fields"]).
Proof.
  change (py "Potential missing email validation.") with EMAIL_MSG.
  change (py "Potential missing numerical validation.") with NUMERIC_MSG.
  change (py "Missing 'required' attribute. Consider adding for important fields")
    with REQUIRED_MSG.
  change (py "Autocomplete is enabled for sensitive field of type '" ++
          type (check_field t) ++ py "'.  This is generally discouraged")
    with (AUTOCOMPLETE_MSG (type (check_field t))).
  split; [rewrite vulnerabilities_check_field; apply findings_unfold|].
  intros Hty Hval Hreq. rewrite vulnerabilities_check_field.
  unfold findings, email_rule, numeric_rule, autocomplete_rule, required_rule.
  rewrite Hty, Hval, Hreq. reflexivity.
Qed.

(** The second part at [<input type="email" value="bad-email">]. *)
Lemma vulnerabilities_in_rule_order_witness :
  vulnerabilities (check_field bad_email) =
  [py "Potential missing email validation.";
   py "Missing 'required' attribute. Consider adding for important fields"].
Proof.
  apply (proj2 (vulnerabilities_in_rule_order bad_email));
    vm_compute; reflexivity.
Defined.

(** C6.  An attribute the tag does not carry takes its default in the
    record: "N/A" for name, value and placeholder, "text" for type, "off"
    for autocomplete; required, readonly and disabled are true exactly when
    the tag carries the attribute, whatever value it is given. *)
Theorem absent_attributes_take_defaults (t : Tag) :
  (attrs t !! py "name" = None -> name (check_field t) = py "N/A") /\
  (attrs t !! py "value" = None -> value (check_field t) = py "N/A") /\
  (attrs t !! py "placeholder" = None ->
   placeholder (check_field t) = py "N/A") /\
  (attrs t !! py "type" = None -> type (check_field t) = py "text") /\
  (attrs t !! py "autocomplete" = None ->
   autocomplete (check_field t) = py "off") /\
  (required (check_field t) = true <->
   exists v : pystr, attrs t !! py "required" = Some v) /\
  (readonly (check_field t) = true <->
   exists v : pystr, attrs t !! py "readonly" = Some v) /\
  (disabled (check_field t) = true <->
   exists v : pystr, attrs t !! py "disabled" = Some v).
Proof.
  rewrite check_field_unfold.
  cbn [name value placeholder type autocomplete required readonly disabled].
  unfold new_field_data, get, has_attr.
  cbn [name value placeholder type autocomplete required readonly disabled].
  repeat split; try (intros ->; reflexivity);
    try (intros H; apply bool_decide_eq_true in H; exact H);
    intros H; apply bool_decide_eq_true; exact H.
Qed.

(** The five defaults at [<input>], which carries no attribute. *)
Lemma absent_attributes_take_defaults_witness :
  name (check_field bare_input) = py "N/A" /\
  value (check_field bare_input) = py "N/A" /\
  placeholder (check_field bare_input) = py "N/A" /\
  type (check_field bare_input) = py "text" /\
  autocomplete (check_field bare_input) = py "off".
Proof.
  destruct (absent_attributes_take_defaults bare_input)
    as (Hn & Hv & Hp & Ht & Ha & _).
  split; [apply Hn; reflexivity|].
  split; [apply Hv; reflexivity|].
  split; [apply Hp; reflexivity|].
  split; [apply Ht; reflexivity | apply Ha; reflexivity].
Defined.

(** C7.  On a page without any form element the function returns the
    empty list and logs one warning that names the URL; it returns
    normally. *)
Theorem no_forms_warning (BeautifulSoup : pystr -> Tag)
    (html_content url : pystr) (log : list LogRecord)
    (Hnone : find_all (BeautifulSoup html_content) (py "form") = []) :
  analyze_form_fields BeautifulSoup html_content url log =
  ([], log ++ [(WARNING, py "No forms found on " ++ url)]).
Proof.
  unfold analyze_form_fields. rewrite analyze_soup_spec, Hnone. reflexivity.
Qed.

(** A page of plain text holds no form. *)
Lemma no_forms_warning_witness :
  analyze_form_fields text_only (py "Nothing to fill in here.")
    (py "http://example.com/") [] =
  ([], [(WARNING, py "No forms found on http://example.com/")]).
Proof.
  apply (no_forms_warning text_only (py "Nothing to fill in here.")
           (py "http://example.com/") []).
  vm_compute. reflexivity.
Defined.

(** C8.  Two runs on the same page text and URL return the same list of
    records and emit the same notices, whatever has been logged before
    each of them: the log is the only state the function touches, and the
    result does not depend on it. *)
Theorem analyze_form_fields_deterministic (BeautifulSoup : pystr -> Tag)
    (html_content url : pystr) (log1 log2 : list LogRecord) :
  fst (analyze_form_fields BeautifulSoup html_content url log1) =
  fst (analyze_form_fields BeautifulSoup html_content url log2) /\
  exists emitted : list LogRecord,
    snd (analyze_form_fields BeautifulSoup html_content url log1) =
      log1 ++ emitted /\
    snd (analyze_form_fields BeautifulSoup html_content url log2) =
      log2 ++ emitted.
Proof.
  unfold analyze_form_fields. rewrite !analyze_soup_spec.
  destruct (find_all (BeautifulSoup html_content) (py "form")).
  - split; [reflexivity|]. eexists. split; reflexivity.
  - split; [reflexivity|]. eexists. split; reflexivity.
Qed.

(** C9.  Two inputs whose attributes agree everywhere except possibly at
    readonly, disabled, name and placeholder get the same findings. *)
Theorem findings_ignore_cosmetic_attributes (t1 t2 : Tag)
    (Hagree : forall k : pystr,
       k ∉ [py "readonly"; py "disabled"; py "name"; py "placeholder"] ->
       attrs t1 !! k = attrs t2 !! k) :
  vulnerabilities (check_field t1) = vulnerabilities (check_field t2).
Proof.
  assert (Hkey : forall k : pystr,
    bool_decide
      (k ∉ [py "readonly"; py "disabled"; py "name"; py "placeholder"])
    = true -> attrs t1 !! k = attrs t2 !! k).
  { intros k Hk. apply Hagree. by apply bool_decide_eq_true in Hk. }
  rewrite !check_field_unfold. cbn [vulnerabilities].
  assert (Hty : type (new_field_data t1) = type (new_field_data t2)).
  { unfold new_field_data, get. cbn [type].
    by rewrite (Hkey (py "type")). }
  assert (Hval : value (new_field_data t1) = value (new_field_data t2)).
  { unfold new_field_data, get. cbn [value].
    by rewrite (Hkey (py "value")). }
  assert (Hauto :
    autocomplete (new_field_data t1) = autocomplete (new_field_data t2)).
  { unfold new_field_data, get. cbn [autocomplete].
    by rewrite (Hkey (py "autocomplete")). }
  assert (Hreq : required (new_field_data t1) = required (new_field_data t2)).
  { unfold new_field_data, has_attr. cbn [required].
    by rewrite (Hkey (py "required")). }
  unfold findings, email_rule, numeric_rule, autocomplete_rule, required_rule.
  by rewrite Hty, Hval, Hauto, Hreq.
Qed.

(** The two phone inputs differ in name, placeholder, readonly and
    disabled only. *)
Lemma findings_ignore_cosmetic_attributes_witness :
  vulnerabilities (check_field phone_a) =
  vulnerabilities (check_field phone_b).
Proof.
  apply (findings_ignore_cosmetic_attributes phone_a phone_b).
  intros k Hk. rewrite !not_elem_of_cons in Hk.
  destruct Hk as (H1 & H2 & H3 & H4 & _).
  unfold phone_a, phone_b, input_tag, attrs. cbn [list_to_map foldr curry fst snd].
  rewrite !lookup_insert, !lookup_empty.
  repeat case_decide; congruence.
Defined.

(** C10.  A field of type "hidden", "submit" or "button" has no finding,
    whatever its other attributes; and no field has more than three. *)
Theorem exempt_types_have_no_findings (t : Tag) :
  (type (check_field t) = py "hidden" \/
   type (check_field t) = py "submit" \/
   type (check_field t) = py "button" ->
   vulnerabilities (check_field t) = []) /\
  (length (vulnerabilities (check_field t)) <= 3)%nat.
Proof.
  rewrite vulnerabilities_check_field. unfold findings. split.
  - intros Hty.
    assert (E1 : email_rule (check_field t) = false).
    { apply not_true_iff_false. rewrite email_rule_true.
      intros (H & _). rewrite H in Hty.
      destruct Hty as [Hty|[Hty|Hty]]; vm_compute in Hty; discriminate Hty. }
    assert (E2 : numeric_rule (check_field t) = false).
    { apply not_true_iff_false. rewrite numeric_rule_true.
      intros ([H|H] & _); rewrite H in Hty;
        destruct Hty as [Hty|[Hty|Hty]]; vm_compute in Hty;
        discriminate Hty. }
    assert (E3 : autocomplete_rule (check_field t) = false).
    { apply not_true_iff_false. rewrite autocomplete_rule_true.
      intros ([H|[H|H]] & _); rewrite H in Hty;
        destruct Hty as [Hty|[Hty|Hty]]; vm_compute in Hty;
        discriminate Hty. }
    assert (E4 : required_rule (check_field t) = false).
    { apply not_true_iff_false. rewrite required_rule_true. tauto. }
    rewrite E1, E2, E3, E4. reflexivity.
  - destruct (email_rule (check_field t)), (numeric_rule (check_field t)),
      (autocomplete_rule (check_field t)), (required_rule (check_field t));
      cbn [length app]; lia.
Qed.

(** A hidden input with a value and autocomplete switched on. *)
Lemma exempt_types_have_no_findings_witness :
  vulnerabilities (check_field hidden_token) = [].
Proof.
  apply (proj1 (exempt_types_have_no_findings hidden_token)).
  left. vm_compute. reflexivity.
Defined.

(** * Further properties of the program *)

(** ** The analyzer as a whole *)

Lemma field_notices_filter (url : pystr) (inputs : list Tag) :
  field_notices url inputs =
  map (fun fd => (WARNING, field_warning fd url))
      (List.filter has_findings (map check_field inputs)).
Proof.
  unfold field_notices.
  induction inputs as [|input_field rest IH]; [reflexivity|].
  cbn [map concat List.filter]. rewrite IH. unfold has_findings.
  destruct (vulnerabilities (check_field input_field)); reflexivity.
Qed.

(** X1.  The function returns one record for each input visited, in the
    order of the visit: form after form in document order, and within a
    form its inputs in document order. *)
Theorem one_record_per_visited_input (BeautifulSoup : pystr -> Tag)
    (html_content url : pystr) (log : list LogRecord) :
  fst (analyze_form_fields BeautifulSoup html_content url log) =
    map check_field (visited_inputs (BeautifulSoup html_content)) /\
  length (fst (analyze_form_fields BeautifulSoup html_content url log)) =
    length (visited_inputs (BeautifulSoup html_content)).
Proof.
  rewrite analyze_form_fields_results, length_map. split; reflexivity.
Qed.

(** X2.  A page that has forms but no input inside any of them gives the
    empty list and logs nothing: the warning of line 40 is for pages
    without forms only. *)
Theorem forms_without_inputs_are_silent (BeautifulSoup : pystr -> Tag)
    (html_content url : pystr) (log : list LogRecord)
    (Hforms : find_all (BeautifulSoup html_content) (py "form") <> [])
    (Hnone : visited_inputs (BeautifulSoup html_content) = []) :
  analyze_form_fields BeautifulSoup html_content url log = ([], log).
Proof.
  unfold analyze_form_fields. rewrite analyze_soup_spec.
  destruct (find_all (BeautifulSoup html_content) (py "form"));
    [congruence|].
  rewrite Hnone. unfold field_notices. cbn [map concat].
  by rewrite app_nil_r.
Qed.

Lemma forms_without_inputs_are_silent_witness :
  analyze_form_fields (fun _ => empty_form_page) (py "<form>...</form>")
    (py "http://example.com/") [] = ([], []).
Proof.
  apply (forms_without_inputs_are_silent (fun _ => empty_form_page)).
  - vm_compute. discriminate.
  - vm_compute. reflexivity.
Defined.

(** X3.  On a page with at least one form the function logs exactly one
    warning for each returned record that has findings, in the order of the
    records, each naming the field and the URL; records without findings
    add nothing to the log. *)
Theorem one_warning_per_field_with_findings (BeautifulSoup : pystr -> Tag)
    (html_content url : pystr) (log : list LogRecord)
    (Hforms : find_all (BeautifulSoup html_content) (py "form") <> []) :
  snd (analyze_form_fields BeautifulSoup html_content url log) =
  log ++
  map (fun fd =>
         (WARNING,
          py "Potential vulnerabilities found in field '" ++ name fd ++
          py "' on " ++ url))
      (List.filter has_findings
         (fst (analyze_form_fields BeautifulSoup html_content url log))).
Proof.
  rewrite analyze_form_fields_results.
  unfold analyze_form_fields. rewrite analyze_soup_spec.
  destruct (find_all (BeautifulSoup html_content) (py "form"));
    [congruence|].
  cbn [snd]. by rewrite field_notices_filter.
Qed.

Lemma one_warning_per_field_with_findings_witness :
  snd (analyze_form_fields (fun _ => nested_forms_page) (py "<form>...")
         (py "http://x/") []) =
  [] ++
  map (fun fd =>
         (WARNING,
          py "Potential vulnerabilities found in field '" ++ name fd ++
          py "' on " ++ py "http://x/"))
      (List.filter has_findings
         (fst (analyze_form_fields (fun _ => nested_forms_page)
                 (py "<form>...") (py "http://x/") []))).
Proof.
  apply (one_warning_per_field_with_findings (fun _ => nested_forms_page)).
  vm_compute. discriminate.
Defined.

(** ** The findings of one field *)

Lemma rules_exclude (fd : FormField) :
  autocomplete_rule fd = true ->
  email_rule fd = false /\ numeric_rule fd = false.
Proof.
  rewrite autocomplete_rule_true. intros [Hty _].
  split; apply not_true_iff_false.
  - rewrite email_rule_true. intros [H _]. rewrite H in Hty.
    destruct Hty as [Hty|[Hty|Hty]]; vm_compute in Hty; discriminate Hty.
  - rewrite numeric_rule_true. intros [[H|H] _]; rewrite H in Hty;
      destruct Hty as [Hty|[Hty|Hty]]; vm_compute in Hty; discriminate Hty.
Qed.

(** X4.  No field has more than two findings: the autocomplete finding
    never comes with a validation finding, since the types of rule 3 are
    none of "email", "number", "tel". *)
Theorem at_most_two_findings (t : Tag) :
  (length (vulnerabilities (check_field t)) <= 2)%nat /\
  ~ (AUTOCOMPLETE_MSG (type (check_field t)) ∈ vulnerabilities (check_field t)
     /\ (EMAIL_MSG ∈ vulnerabilities (check_field t) \/
         NUMERIC_MSG ∈ vulnerabilities (check_field t))).
Proof.
  rewrite vulnerabilities_check_field.
  rewrite AUTOCOMPLETE_MSG_in_findings, EMAIL_MSG_in_findings,
    NUMERIC_MSG_in_findings.
  pose proof (rules_exclude (check_field t)) as Hex.
  unfold findings.
  destruct (autocomplete_rule (check_field t)).
  - destruct (Hex eq_refl) as [-> ->]. split.
    + destruct (required_rule (check_field t)); cbn [length app]; lia.
    + intros [_ [H|[_ H]]]; discriminate H.
  - split.
    + destruct (email_rule (check_field t)), (numeric_rule (check_field t)),
        (required_rule (check_field t)); cbn [length app]; lia.
    + intros [H _]. discriminate H.
Qed.

Lemma findings_known (fd : FormField) (m : pystr) :
  m ∈ findings fd ->
  m = EMAIL_MSG \/ m = NUMERIC_MSG \/
  m = AUTOCOMPLETE_MSG (type fd) \/ m = REQUIRED_MSG.
Proof.
  unfold findings. rewrite !elem_of_app.
  destruct (email_rule fd), (numeric_rule fd), (autocomplete_rule fd),
    (required_rule fd);
    rewrite ?elem_of_cons, ?elem_of_nil; tauto.
Qed.

(** X5.  Every finding is one of the four messages, and no message occurs
    twice in the findings of a field. *)
Theorem findings_are_distinct_known_messages (t : Tag) :
  NoDup (vulnerabilities (check_field t)) /\
  forall m : pystr,
    m ∈ vulnerabilities (check_field t) ->
    m = EMAIL_MSG \/ m = NUMERIC_MSG \/
    m = AUTOCOMPLETE_MSG (type (check_field t)) \/ m = REQUIRED_MSG.
Proof.
  rewrite vulnerabilities_check_field.
  split; [|intros m; apply findings_known].
  unfold findings.
  pose proof EMAIL_MSG_neq_REQUIRED_MSG.
  pose proof NUMERIC_MSG_neq_REQUIRED_MSG.
  pose proof (EMAIL_MSG_neq_AUTOCOMPLETE_MSG (type (check_field t))).
  pose proof (NUMERIC_MSG_neq_AUTOCOMPLETE_MSG (type (check_field t))).
  pose proof (REQUIRED_MSG_neq_AUTOCOMPLETE_MSG (type (check_field t))).
  destruct (email_rule (check_field t)), (numeric_rule (check_field t)),
    (autocomplete_rule (check_field t)), (required_rule (check_field t));
    cbn [app]; repeat (apply NoDup_cons; split);
    try apply NoDup_nil_2;
    rewrite ?elem_of_cons, ?elem_of_nil; intuition congruence.
Qed.

Lemma findings_are_distinct_known_messages_witness :
  REQUIRED_MSG = EMAIL_MSG \/ REQUIRED_MSG = NUMERIC_MSG \/
  REQUIRED_MSG = AUTOCOMPLETE_MSG (type (check_field bare_input)) \/
  REQUIRED_MSG = REQUIRED_MSG.
Proof.
  apply (proj2 (findings_are_distinct_known_messages bare_input)).
  vm_compute. apply list_elem_of_here.
Defined.

Lemma value_check_field (t : Tag) :
  value (check_field t) = default (py "N/A") (attrs t !! py "value").
Proof. rewrite check_field_unfold. reflexivity. Qed.

Lemma autocomplete_check_field (t : Tag) :
  autocomplete (check_field t) =
  default (py "off") (attrs t !! py "autocomplete").
Proof. rewrite check_field_unfold. reflexivity. Qed.

Lemma type_check_field_get (t : Tag) :
  type (check_field t) = default (py "text") (attrs t !! py "type").
Proof. rewrite check_field_unfold. reflexivity. Qed.

Lemma required_check_field (t : Tag) :
  required (check_field t) =
  bool_decide (is_Some (attrs t !! py "required")).
Proof. rewrite check_field_unfold. reflexivity. Qed.

(** X6.  An input without a value attribute, or whose value is the text
    "N/A" itself, gets neither validation finding, whatever its type. *)
Theorem no_value_no_validation_finding (t : Tag)
    (Hval : attrs t !! py "value" = None \/
            attrs t !! py "value" = Some (py "N/A")) :
  (EMAIL_MSG ∉ vulnerabilities (check_field t)) /\
  (NUMERIC_MSG ∉ vulnerabilities (check_field t)).
Proof.
  assert (Hna : value (check_field t) = py "N/A").
  { rewrite value_check_field. by destruct Hval as [-> | ->]. }
  rewrite vulnerabilities_check_field.
  rewrite EMAIL_MSG_in_findings, NUMERIC_MSG_in_findings,
    email_rule_true, numeric_rule_true.
  split; [tauto|]. intros [_ H]. tauto.
Qed.

Lemma no_value_no_validation_finding_witness :
  (EMAIL_MSG ∉ vulnerabilities (check_field password_on)) /\
  (NUMERIC_MSG ∉ vulnerabilities (check_field password_on)).
Proof.
  apply (no_value_no_validation_finding password_on).
  left. vm_compute. reflexivity.
Defined.

(** X7.  An input without an autocomplete attribute gets no autocomplete
    finding, even when its type is "password", "credit-card" or "cvv": the
    absent attribute counts as "off". *)
Theorem absent_autocomplete_counts_as_off (t : Tag)
    (Habsent : attrs t !! py "autocomplete" = None) :
  forall ty : pystr, AUTOCOMPLETE_MSG ty ∉ vulnerabilities (check_field t).
Proof.
  intros ty Hin.
  pose proof Hin as Hm. rewrite vulnerabilities_check_field in Hm.
  apply findings_known in Hm.
  assert (Hrule : AUTOCOMPLETE_MSG (type (check_field t))
                    ∈ vulnerabilities (check_field t)).
  { destruct Hm as [Hm|[Hm|[Hm|Hm]]].
    - symmetry in Hm. by apply EMAIL_MSG_neq_AUTOCOMPLETE_MSG in Hm.
    - symmetry in Hm. by apply NUMERIC_MSG_neq_AUTOCOMPLETE_MSG in Hm.
    - by rewrite <- Hm.
    - symmetry in Hm. by apply REQUIRED_MSG_neq_AUTOCOMPLETE_MSG in Hm. }
  rewrite vulnerabilities_check_field, AUTOCOMPLETE_MSG_in_findings,
    autocomplete_rule_true in Hrule.
  destruct Hrule as [_ Hoff]. apply Hoff.
  rewrite autocomplete_check_field, Habsent. reflexivity.
Qed.

Lemma absent_autocomplete_counts_as_off_witness :
  AUTOCOMPLETE_MSG (py "password")
    ∉ vulnerabilities (check_field password_plain).
Proof.
  apply (absent_autocomplete_counts_as_off password_plain).
  vm_compute. reflexivity.
Defined.

(** X8.  An input without a type attribute is treated as a text field: its
    only possible finding is the missing required attribute. *)
Theorem untyped_input_findings (t : Tag)
    (Habsent : attrs t !! py "type" = None) :
  vulnerabilities (check_field t) =
  if required (check_field t) then [] else [REQUIRED_MSG].
Proof.
  assert (Hty : type (check_field t) = py "text").
  { rewrite type_check_field_get, Habsent. reflexivity. }
  rewrite vulnerabilities_check_field.
  unfold findings, email_rule, numeric_rule, autocomplete_rule,
    required_rule.
  rewrite Hty. destruct (required (check_field t)); reflexivity.
Qed.

Lemma untyped_input_findings_witness :
  vulnerabilities (check_field bare_input) =
  if required (check_field bare_input) then [] else [REQUIRED_MSG].
Proof.
  apply (untyped_input_findings bare_input). vm_compute. reflexivity.
Defined.

(** ** What the two validation rules let through and what they flag *)

(** X9.  An email field whose value begins with text of the shape
    x@y.z is not flagged, whatever follows: the pattern is not anchored at
    the end of the value. *)
Theorem email_trailing_text_is_ignored (t : Tag) (w r : pystr)
    (Hval : value (check_field t) = w ++ r)
    (Hshape : email_shaped w) :
  EMAIL_MSG ∉ vulnerabilities (check_field t).
Proof.
  rewrite vulnerabilities_check_field, EMAIL_MSG_in_findings,
    email_rule_true.
  intros (_ & _ & Hno). apply Hno.
  apply matches_at_start_EMAIL_RE. by exists w, r.
Qed.

Lemma email_trailing_text_is_ignored_witness :
  EMAIL_MSG ∉ vulnerabilities (check_field email_with_tail).
Proof.
  apply (email_trailing_text_is_ignored email_with_tail
           (py "a@b.c") (py "@@@ not an address")).
  - vm_compute. reflexivity.
  - exists (py "a"), (py "b"), (py "c").
    split; [reflexivity|].
    repeat split; try discriminate;
      apply (bool_decide_unpack _); vm_compute; exact I.
Defined.

(** X10.  An email field with a value (other than "N/A") that holds no
    '@' is always flagged. *)
Theorem email_without_at_is_flagged (t : Tag)
    (Hty : type (check_field t) = py "email")
    (Hval : value (check_field t) <> py "N/A")
    (Hno_at : 64 ∉ value (check_field t)) :
  EMAIL_MSG ∈ vulnerabilities (check_field t).
Proof.
  rewrite vulnerabilities_check_field, EMAIL_MSG_in_findings,
    email_rule_true.
  split; [exact Hty|]. split; [exact Hval|].
  rewrite matches_at_start_EMAIL_RE.
  intros (w & r & Hs & a & b & c & -> & _).
  apply Hno_at. rewrite Hs.
  rewrite !elem_of_app, elem_of_cons. tauto.
Qed.

Lemma email_without_at_is_flagged_witness :
  EMAIL_MSG ∈ vulnerabilities (check_field bad_email).
Proof.
  apply (email_without_at_is_flagged bad_email).
  - vm_compute. reflexivity.
  - vm_compute. discriminate.
  - apply (bool_decide_unpack _). vm_compute. exact I.
Defined.

(** X11.  A number or tel field with a value (other than "N/A") that holds
    a character [str.isdigit] rejects is flagged: a sign, a decimal point,
    a space or a letter anywhere in the value is enough. *)
Theorem non_digit_character_is_flagged (t : Tag) (c : N)
    (Hty : type (check_field t) = py "number" \/
           type (check_field t) = py "tel")
    (Hval : value (check_field t) <> py "N/A")
    (Hc : c ∈ value (check_field t))
    (Hnot : Py_UNICODE_ISDIGIT c = false) :
  NUMERIC_MSG ∈ vulnerabilities (check_field t).
Proof.
  rewrite vulnerabilities_check_field, NUMERIC_MSG_in_findings,
    numeric_rule_true.
  split.
  - apply not_true_iff_false. rewrite email_rule_true.
    intros [H _]. rewrite H in Hty.
    destruct Hty as [Hty|Hty]; vm_compute in Hty; discriminate Hty.
  - split; [exact Hty|]. split; [exact Hval|].
    intros [_ Hall]. rewrite Forall_forall in Hall.
    specialize (Hall c Hc). congruence.
Qed.

Lemma non_digit_character_is_flagged_witness :
  NUMERIC_MSG ∈ vulnerabilities (check_field minus_five).
Proof.
  apply (non_digit_character_is_flagged minus_five 45).
  - left. vm_compute. reflexivity.
  - vm_compute. discriminate.
  - apply (bool_decide_unpack _). vm_compute. exact I.
  - vm_compute. reflexivity.
Defined.

(** ** Forms inside forms *)

Lemma descendant_tags_cons_tag (n : pystr) (a : gmap pystr pystr)
    (x : Tag) (cs : list (pystr + Tag)) :
  descendant_tags (mkTag n a (inr x :: cs)) =
  x :: descendant_tags x ++ descendant_tags (mkTag n a cs).
Proof. reflexivity. Qed.

Lemma descendant_tags_cons_text (n : pystr) (a : gmap pystr pystr)
    (s : pystr) (cs : list (pystr + Tag)) :
  descendant_tags (mkTag n a (inl s :: cs)) =
  descendant_tags (mkTag n a cs).
Proof. reflexivity. Qed.

Lemma tag_size_cons_tag (n : pystr) (a : gmap pystr pystr)
    (x : Tag) (cs : list (pystr + Tag)) :
  tag_size (mkTag n a (inr x :: cs)) =
  (tag_size x + tag_size (mkTag n a cs))%nat.
Proof. cbn [tag_size]. lia. Qed.

Lemma tag_size_cons_text (n : pystr) (a : gmap pystr pystr)
    (s : pystr) (cs : list (pystr + Tag)) :
  tag_size (mkTag n a (inl s :: cs)) = tag_size (mkTag n a cs).
Proof. reflexivity. Qed.

Lemma tag_size_pos (t : Tag) : (0 < tag_size t)%nat.
Proof. destruct t. cbn [tag_size]. lia. Qed.

(** A tag below another one is a smaller tree. *)
Lemma descendant_tags_smaller (t : Tag) :
  forall d : Tag, d ∈ descendant_tags t -> (tag_size d < tag_size t)%nat.
Proof.
  induction t as [n a cs IH] using Tag_children_ind.
  induction IH as [|c cs Hc _ IHcs]; intros d Hd.
  - by apply elem_of_nil in Hd.
  - destruct c as [s|x].
    + rewrite descendant_tags_cons_text in Hd.
      rewrite tag_size_cons_text. by apply IHcs.
    + rewrite descendant_tags_cons_tag in Hd.
      rewrite tag_size_cons_tag.
      pose proof (tag_size_pos (mkTag n a cs)).
      apply elem_of_cons in Hd as [->|Hd]; [lia|].
      apply elem_of_app in Hd as [Hd|Hd].
      * apply Hc in Hd. lia.
      * apply IHcs in Hd. lia.
Qed.

(** What lies below a tag below [t] lies below [t]. *)
Lemma descendant_tags_trans (t : Tag) :
  forall c d : Tag,
    c ∈ descendant_tags t -> d ∈ descendant_tags c -> d ∈ descendant_tags t.
Proof.
  induction t as [n a cs IH] using Tag_children_ind.
  induction IH as [|k cs Hk _ IHcs]; intros c d Hc Hd.
  - by apply elem_of_nil in Hc.
  - destruct k as [s|x].
    + rewrite descendant_tags_cons_text in *. by apply (IHcs c).
    + rewrite descendant_tags_cons_tag in *.
      rewrite elem_of_cons, elem_of_app.
      apply elem_of_cons in Hc as [->|Hc]; [tauto|].
      apply elem_of_app in Hc as [Hc|Hc].
      * right. left. by apply (Hk c).
      * right. right. by apply (IHcs c).
Qed.

Lemma find_all_elem (t d : Tag) (name : pystr) :
  d ∈ find_all t name <-> d ∈ descendant_tags t /\ tag_name d = name.
Proof. unfold find_all. rewrite list_elem_of_filter. tauto. Qed.

(** Two different elements of a list stand at two places of it. *)
Lemma two_elements_split {A : Type} (l : list A) (x y : A) :
  x ∈ l -> y ∈ l -> x <> y ->
  exists a b c, l = a ++ x :: b ++ y :: c \/ l = a ++ y :: b ++ x :: c.
Proof.
  intros Hx Hy Hne.
  apply list_elem_of_split in Hx as (a & c & ->).
  apply elem_of_app in Hy as [Hy|Hy].
  - apply list_elem_of_split in Hy as (a1 & a2 & ->).
    exists a1, a2, c. right. by rewrite <- !app_assoc.
  - apply elem_of_cons in Hy as [->|Hy]; [congruence|].
    apply list_elem_of_split in Hy as (c1 & c2 & ->).
    exists a, c1, c2. by left.
Qed.

Lemma visited_twice (soup outer inner i : Tag) :
  outer ∈ find_all soup (py "form") ->
  inner ∈ find_all outer (py "form") ->
  i ∈ find_all inner (py "input") ->
  exists l1 l2 l3, visited_inputs soup = l1 ++ i :: l2 ++ i :: l3.
Proof.
  intros Houter Hinner Hi.
  apply find_all_elem in Hinner as [Hin_d Hin_n].
  apply find_all_elem in Hi as [Hi_d Hi_n].
  assert (Hne : outer <> inner).
  { intros ->. apply descendant_tags_smaller in Hin_d. lia. }
  assert (Hinner' : inner ∈ find_all soup (py "form")).
  { apply find_all_elem in Houter as [Ho_d _].
    apply find_all_elem. split; [|done].
    by apply (descendant_tags_trans soup outer). }
  assert (Hi_inner : i ∈ find_all inner (py "input"))
    by (by apply find_all_elem).
  assert (Hi_outer : i ∈ find_all outer (py "input")).
  { apply find_all_elem. split; [|done].
    by apply (descendant_tags_trans outer inner). }
  apply list_elem_of_split in Hi_inner as (p1 & p2 & Hp).
  apply list_elem_of_split in Hi_outer as (q1 & q2 & Hq).
  unfold visited_inputs.
  destruct (two_elements_split _ _ _ Houter Hinner' Hne)
    as (a & b & c & [-> | ->]);
    rewrite !map_app, !concat_app; cbn [map concat];
    rewrite !map_app, !concat_app; cbn [map concat];
    rewrite Hp, Hq.
  - eexists (concat _ ++ q1), (q2 ++ concat _ ++ p1), (p2 ++ concat _).
    by rewrite <- !app_assoc.
  - eexists (concat _ ++ p1), (p2 ++ concat _ ++ q1), (q2 ++ concat _).
    by rewrite <- !app_assoc.
Qed.

(** X12.  The record of an input that lies in a form nested in another
    form of the page is returned at least twice: once for each of the two
    forms, since line 44 collects the inputs at any depth below a form. *)
Theorem nested_form_inputs_are_reported_twice
    (BeautifulSoup : pystr -> Tag) (html_content url : pystr)
    (log : list LogRecord) (outer inner i : Tag)
    (Houter : outer ∈ find_all (BeautifulSoup html_content) (py "form"))
    (Hinner : inner ∈ find_all outer (py "form"))
    (Hi : i ∈ find_all inner (py "input")) :
  exists l1 l2 l3 : list FormField,
    fst (analyze_form_fields BeautifulSoup html_content url log) =
    l1 ++ check_field i :: l2 ++ check_field i :: l3.
Proof.
  rewrite analyze_form_fields_results.
  destruct (visited_twice _ _ _ _ Houter Hinner Hi) as (l1 & l2 & l3 & ->).
  exists (map check_field l1), (map check_field l2), (map check_field l3).
  rewrite map_app. cbn [map]. rewrite map_app. reflexivity.
Qed.

Lemma nested_form_inputs_are_reported_twice_witness :
  exists l1 l2 l3 : list FormField,
    fst (analyze_form_fields (fun _ => nested_forms_page)
           (py "<form><form><input ...></form></form>")
           (py "http://x/") []) =
    l1 ++ check_field bad_email :: l2 ++ check_field bad_email :: l3.
Proof.
  apply (nested_form_inputs_are_reported_twice (fun _ => nested_forms_page)
           _ _ _ outer_form inner_form bad_email).
  - apply find_all_elem. split; [|reflexivity].
    cbn. apply list_elem_of_here.
  - apply find_all_elem. split; [|reflexivity].
    cbn. apply list_elem_of_here.
  - apply find_all_elem. split; [|reflexivity].
    cbn. apply list_elem_of_here.
Defined.

(** ** The world the program acts on *)

Lemma startswith_spec (s prefix : pystr) :
  startswith s prefix = true <-> exists r, s = prefix ++ r.
Proof.
  revert s. induction prefix as [|p prefix IH]; intros s.
  - split; [by exists s | reflexivity].
  - destruct s as [|c s]; cbn [startswith].
    + split; [discriminate | intros (r & Hr); discriminate Hr].
    + rewrite andb_true_iff, N.eqb_eq, IH. split.
      * intros (-> & r & ->). by exists r.
      * intros (r & Hr). injection Hr as -> ->. eauto.
Qed.

Lemma scheme_accepted_spec (url : pystr) :
  scheme_accepted url = true <->
  (exists r, url = py "http://" ++ r) \/ (exists r, url = py "https://" ++ r).
Proof.
  unfold scheme_accepted. by rewrite orb_true_iff, !startswith_spec.
Qed.

Lemma logging_log_records (l : level) (msg : pystr) (w : World) :
  log_records (logging_log l msg w) =
  log_records w ++ if logger_level w <=? levelno l then [(l, msg)] else [].
Proof.
  unfold logging_log. destruct (logger_level w <=? levelno l);
    [reflexivity | by rewrite app_nil_r].
Qed.

Lemma logging_log_frame (l : level) (msg : pystr) (w : World) :
  logger_level (logging_log l msg w) = logger_level w /\
  stdout (logging_log l msg w) = stdout w /\
  requests_sent (logging_log l msg w) = requests_sent w /\
  files_written (logging_log l msg w) = files_written w.
Proof.
  unfold logging_log. by destruct (logger_level w <=? levelno l).
Qed.

Lemma foldl_logging_log (rs : list LogRecord) :
  forall w : World,
    log_records (foldl (fun w' r => logging_log (fst r) (snd r) w') w rs) =
      log_records w ++
      List.filter (fun r => logger_level w <=? levelno (fst r)) rs /\
    logger_level (foldl (fun w' r => logging_log (fst r) (snd r) w') w rs) =
      logger_level w /\
    stdout (foldl (fun w' r => logging_log (fst r) (snd r) w') w rs) =
      stdout w /\
    requests_sent (foldl (fun w' r => logging_log (fst r) (snd r) w') w rs) =
      requests_sent w /\
    files_written (foldl (fun w' r => logging_log (fst r) (snd r) w') w rs) =
      files_written w.
Proof.
  induction rs as [|[l msg] rs IH]; intros w.
  - cbn [foldl List.filter]. by rewrite app_nil_r.
  - cbn [foldl List.filter fst snd].
    destruct (IH (logging_log l msg w)) as (Hlog & Hlvl & Hout & Hreq & Hfiles).
    destruct (logging_log_frame l msg w) as (Hlvl' & Hout' & Hreq' & Hfiles').
    rewrite Hlog, Hlvl, Hout, Hreq, Hfiles, Hlvl', Hout', Hreq', Hfiles'.
    rewrite logging_log_records.
    destruct (logger_level w <=? levelno l);
      by rewrite <- ?app_assoc, ?app_nil_r.
Qed.

(** The records of the analyzer are warnings. *)
Lemma analyzer_log_is_warnings (parser : pystr -> Tag)
    (html_content url : pystr) :
  Forall (fun r => fst r = WARNING)
         (snd (analyze_form_fields parser html_content url [])).
Proof.
  unfold analyze_form_fields. rewrite analyze_soup_spec.
  destruct (find_all (parser html_content) (py "form")).
  - cbn [snd app]. by repeat constructor.
  - cbn [snd app]. rewrite field_notices_filter.
    apply Forall_forall. intros r Hr.
    apply list_elem_of_fmap in Hr as (fd & -> & _). reflexivity.
Qed.

Lemma filter_all {A : Type} (f : A -> bool) (l : list A) :
  Forall (fun x => f x = true) l -> List.filter f l = l.
Proof.
  induction 1 as [|x l Hx _ IH]; [reflexivity|].
  cbn [List.filter]. by rewrite Hx, IH.
Qed.

Lemma run_logging_analyzer (parser : pystr -> Tag)
    (html_content url : pystr) (w : World) :
  fst (run_logging (analyze_form_fields parser html_content url) w) =
    map check_field (visited_inputs (parser html_content)) /\
  logger_level
    (snd (run_logging (analyze_form_fields parser html_content url) w)) =
    logger_level w /\
  stdout (snd (run_logging (analyze_form_fields parser html_content url) w)) =
    stdout w /\
  requests_sent
    (snd (run_logging (analyze_form_fields parser html_content url) w)) =
    requests_sent w /\
  files_written
    (snd (run_logging (analyze_form_fields parser html_content url) w)) =
    files_written w /\
  (logger_level w <= 30 ->
   log_records
     (snd (run_logging (analyze_form_fields parser html_content url) w)) =
   log_records w ++ snd (analyze_form_fields parser html_content url [])).
Proof.
  unfold run_logging. cbn [fst snd].
  destruct (foldl_logging_log
              (snd (analyze_form_fields parser html_content url [])) w)
    as (Hlog & Hlvl & Hout & Hreq & Hfiles).
  rewrite analyze_form_fields_results.
  repeat split; try done.
  intros Hle. rewrite Hlog. f_equal. apply filter_all.
  eapply Forall_impl; [apply analyzer_log_is_warnings|].
  intros r Hr. cbn beta. rewrite Hr. apply N.leb_le. exact Hle.
Qed.

Lemma print_field_frame (env : Env) (w : World) (fd : FormField) :
  log_records (print_field env w fd) = log_records w /\
  logger_level (print_field env w fd) = logger_level w /\
  requests_sent (print_field env w fd) = requests_sent w /\
  files_written (print_field env w fd) = files_written w /\
  length (stdout (print_field env w fd)) = (length (stdout w) + 6)%nat.
Proof.
  unfold print_field, print. cbn.
  repeat split. rewrite !length_app. cbn [length]. lia.
Qed.

Lemma foldl_print_field_frame (env : Env) (fds : list FormField) :
  forall w : World,
    log_records (foldl (print_field env) w fds) = log_records w /\
    logger_level (foldl (print_field env) w fds) = logger_level w /\
    requests_sent (foldl (print_field env) w fds) = requests_sent w /\
    files_written (foldl (print_field env) w fds) = files_written w /\
    length (stdout (foldl (print_field env) w fds)) =
      (length (stdout w) + 6 * length fds)%nat.
Proof.
  induction fds as [|fd fds IH]; intros w.
  - cbn [foldl length]. repeat split. lia.
  - cbn [foldl length].
    destruct (IH (print_field env w fd)) as (H1 & H2 & H3 & H4 & H5).
    destruct (print_field_frame env w fd) as (G1 & G2 & G3 & G4 & G5).
    rewrite H1, H2, H3, H4, H5, G1, G2, G3, G4, G5.
    repeat split. lia.
Qed.

Lemma fetch_html_content_frame (env : Env) (url : pystr) (w : World) :
  fst (fetch_html_content env url w) = page_text env url /\
  logger_level (snd (fetch_html_content env url w)) = logger_level w /\
  stdout (snd (fetch_html_content env url w)) = stdout w /\
  requests_sent (snd (fetch_html_content env url w)) =
    requests_sent w ++ [url] /\
  files_written (snd (fetch_html_content env url w)) = files_written w.
Proof.
  unfold fetch_html_content, page_text.
  destruct (requests_get env url) as [s t e|e].
  - destruct ((400 <=? s) && (s <? 600)); cbn [fst snd]; [|done].
    unfold logging_log. cbn. by destruct (logger_level w <=? 40).
  - cbn [fst snd]. unfold logging_log. cbn.
    by destruct (logger_level w <=? 40).
Qed.

Lemma fetch_html_content_log (env : Env) (url : pystr) (w : World) :
  logger_level w <= 40 ->
  log_records (snd (fetch_html_content env url w)) =
  log_records w ++
  match requests_get env url with
  | Response s _ e =>
      if (400 <=? s) && (s <? 600)
      then [(ERROR, py "Error fetching URL " ++ url ++ py ": " ++ e)]
      else []
  | RequestException e =>
      [(ERROR, py "Error fetching URL " ++ url ++ py ": " ++ e)]
  end.
Proof.
  intros Hle. apply N.leb_le in Hle.
  unfold fetch_html_content.
  destruct (requests_get env url) as [s t e|e].
  - destruct ((400 <=? s) && (s <? 600)); cbn [fst snd].
    + rewrite logging_log_records. cbn [logger_level levelno log_records].
      by rewrite Hle.
    + cbn. by rewrite app_nil_r.
  - cbn [fst snd]. rewrite logging_log_records.
    cbn [logger_level levelno log_records]. by rewrite Hle.
Qed.

Lemma save_results_frame (env : Env) (results : list FormField)
    (filename : pystr) (w : World) :
  logger_level (save_results env results filename w) = logger_level w /\
  stdout (save_results env results filename w) = stdout w /\
  requests_sent (save_results env results filename w) = requests_sent w /\
  files_written (save_results env results filename w) =
    files_written w ++
    match IOError_of env filename with
    | None => [(filename, json_dump results)]
    | Some _ => []
    end.
Proof.
  unfold save_results. destruct (IOError_of env filename) as [e|].
  - destruct (logging_log_frame ERROR
                (py "Error saving results to " ++ filename ++ py ": " ++ e) w)
      as (-> & -> & -> & ->).
    by rewrite app_nil_r.
  - unfold logging_log. cbn. by destruct (logger_level w <=? 20).
Qed.

Lemma save_results_log (env : Env) (results : list FormField)
    (filename : pystr) (w : World) :
  logger_level w <= 20 ->
  log_records (save_results env results filename w) =
  log_records w ++
  [match IOError_of env filename with
   | None => (INFO, py "Results saved to " ++ filename)
   | Some e =>
       (ERROR, py "Error saving results to " ++ filename ++ py ": " ++ e)
   end].
Proof.
  intros Hle. unfold save_results.
  destruct (IOError_of env filename) as [e|];
    rewrite logging_log_records; cbn [logger_level levelno log_records].
  - assert (H : (logger_level w <=? 40) = true) by (apply N.leb_le; lia).
    by rewrite H.
  - assert (H : (logger_level w <=? 20) = true) by (apply N.leb_le; lia).
    by rewrite H.
Qed.

Lemma print_field_stdout (env : Env) (w : World) (fd : FormField) :
  stdout (print_field env w fd) = stdout w ++ field_lines env fd.
Proof.
  unfold print_field, print, field_lines. cbn [stdout].
  by rewrite <- !app_assoc.
Qed.

Lemma foldl_print_field_stdout (env : Env) (fds : list FormField) :
  forall w : World,
    stdout (foldl (print_field env) w fds) =
    stdout w ++ concat (map (field_lines env) fds).
Proof.
  induction fds as [|fd fds IH]; intros w.
  - cbn [foldl map concat]. by rewrite app_nil_r.
  - cbn [foldl map concat]. rewrite IH, print_field_stdout.
    by rewrite <- app_assoc.
Qed.

(** ** [main], branch by branch *)

Lemma main_rejected (env : Env) (args : Namespace) (w : World) :
  scheme_accepted (args_url args) = false ->
  main env args w = (1, print SCHEME_ERROR w).
Proof.
  unfold scheme_accepted, main. intros H.
  apply orb_false_iff in H as [-> ->]. reflexivity.
Qed.

Lemma main_accepted (env : Env) (args : Namespace) (w : World) :
  scheme_accepted (args_url args) = true ->
  main env args w =
  (0,
   let w0 := if args_verbose args then setLevel DEBUG w else w in
   let w1 := snd (fetch_html_content env (args_url args) w0) in
   match page_text env (args_url args) with
   | Some ((_ :: _) as html) =>
       let w2 :=
         snd (run_logging
                (analyze_form_fields (html_parser env) html (args_url args))
                w1) in
       match map check_field (visited_inputs (html_parser env html)) with
       | [] => print NO_FIELDS w2
       | (_ :: _) as results =>
           let w3 :=
             foldl (print_field env)
                   (print (py "Form field analysis results:") w2) results in
           match args_output args with
           | Some ((_ :: _) as filename) =>
               save_results env results filename w3
           | _ => w3
           end
       end
   | _ => print FETCH_FAILED w1
   end).
Proof.
  unfold scheme_accepted, main. intros H.
  assert (Hc : negb (startswith (args_url args) (py "http://")) &&
               negb (startswith (args_url args) (py "https://")) = false).
  { rewrite <- negb_orb, H. reflexivity. }
  rewrite Hc. cbn zeta.
  set (w0 := if args_verbose args then setLevel DEBUG w else w).
  destruct (fetch_html_content_frame env (args_url args) w0) as (Hfst & _).
  destruct (fetch_html_content env (args_url args) w0) as [h w1].
  cbn [fst snd] in *. subst h.
  destruct (page_text env (args_url args)) as [[|c html]|]; try reflexivity.
  destruct (run_logging_analyzer (html_parser env) (c :: html)
              (args_url args) w1) as (Hres & _).
  destruct (run_logging
              (analyze_form_fields (html_parser env) (c :: html)
                 (args_url args)) w1) as [results w2].
  cbn [fst snd] in *. subst results.
  destruct (map check_field (visited_inputs (html_parser env (c :: html))));
    [reflexivity|].
  destruct (args_output args) as [[|]|]; reflexivity.
Qed.



(** X14.  A URL that begins with neither "http://" nor "https://" (in this
    very spelling: the test is case sensitive) ends the run with exit
    status 1 after one printed line; nothing is requested, logged or
    written. *)
Theorem main_rejects_other_schemes (env : Env) (args : Namespace) (w : World)
    (Hhttp : forall r, args_url args <> py "http://" ++ r)
    (Hhttps : forall r, args_url args <> py "https://" ++ r) :
  fst (main env args w) = 1 /\
  stdout (snd (main env args w)) =
    stdout w ++ [py "Error: URL must start with http:// or https://"] /\
  requests_sent (snd (main env args w)) = requests_sent w /\
  log_records (snd (main env args w)) = log_records w /\
  files_written (snd (main env args w)) = files_written w.
Proof.
  rewrite main_rejected; [by repeat split|].
  apply not_true_iff_false. rewrite scheme_accepted_spec.
  intros [[r Hr]|[r Hr]]; [by apply (Hhttp r) | by apply (Hhttps r)].
Qed.

Lemma main_rejects_other_schemes_witness :
  fst (main sample_env
         {| args_url := py "HTTP://EXAMPLE.COM/"; args_output := None;
            args_verbose := true |} initial_world) = 1.
Proof.
  apply (main_rejects_other_schemes sample_env
           {| args_url := py "HTTP://EXAMPLE.COM/"; args_output := None;
              args_verbose := true |} initial_world);
    intros r Hr; vm_compute in Hr; discriminate Hr.
Defined.





(** ** What a run leaves behind, component by component *)

Lemma setLevel_if_frame (b : bool) (w : World) :
  log_records (if b then setLevel DEBUG w else w) = log_records w /\
  stdout (if b then setLevel DEBUG w else w) = stdout w /\
  requests_sent (if b then setLevel DEBUG w else w) = requests_sent w /\
  files_written (if b then setLevel DEBUG w else w) = files_written w /\
  (logger_level w <= 20 ->
   logger_level (if b then setLevel DEBUG w else w) <= 20).
Proof.
  destruct b; repeat split; try done; cbn; unfold DEBUG; lia.
Qed.

Lemma main_stdout (env : Env) (args : Namespace) (w : World) :
  scheme_accepted (args_url args) = true ->
  stdout (snd (main env args w)) =
  stdout w ++
  match analysed env (args_url args) with
  | None => [FETCH_FAILED]
  | Some [] => [NO_FIELDS]
  | Some ((_ :: _) as results) =>
      py "Form field analysis results:" ::
      concat (map (field_lines env) results)
  end.
Proof.
  intros Hs. rewrite main_accepted by done. cbn [snd]. cbn zeta.
  unfold analysed.
  set (w0 := if args_verbose args then setLevel DEBUG w else w).
  destruct (setLevel_if_frame (args_verbose args) w) as (_ & Hw0 & _).
  fold w0 in Hw0.
  destruct (fetch_html_content_frame env (args_url args) w0)
    as (_ & _ & Hout & _).
  rewrite Hw0 in Hout.
  destruct (page_text env (args_url args)) as [[|c html]|];
    [cbn [print stdout]; congruence | | cbn [print stdout]; congruence].
  destruct (run_logging_analyzer (html_parser env) (c :: html)
              (args_url args)
              (snd (fetch_html_content env (args_url args) w0)))
    as (_ & _ & Hout2 & _).
  destruct (map check_field (visited_inputs (html_parser env (c :: html))))
    as [|fd fds]; [cbn [print stdout]; congruence|].
  assert (Hprinted :
    stdout (foldl (print_field env)
              (print (py "Form field analysis results:")
                 (snd (run_logging
                         (analyze_form_fields (html_parser env) (c :: html)
                            (args_url args))
                         (snd (fetch_html_content env (args_url args) w0)))))
              (fd :: fds)) =
    stdout w ++
    py "Form field analysis results:" ::
    concat (map (field_lines env) (fd :: fds))).
  { rewrite foldl_print_field_stdout. cbn [print stdout].
    rewrite Hout2, Hout. by rewrite <- app_assoc. }
  destruct (args_output args) as [[|c' f]|]; try exact Hprinted.
  match goal with
  | |- context [save_results env ?r ?f ?w1] =>
      destruct (save_results_frame env r f w1) as (_ & Hout4 & _)
  end.
  by rewrite Hout4.
Qed.

Lemma main_files (env : Env) (args : Namespace) (w : World) :
  scheme_accepted (args_url args) = true ->
  files_written (snd (main env args w)) =
  files_written w ++
  match save_target env args with
  | Some filename =>
      match IOError_of env filename with
      | None =>
          [(filename, json_dump (default [] (analysed env (args_url args))))]
      | Some _ => []
      end
  | None => []
  end.
Proof.
  intros Hs. rewrite main_accepted by done. cbn [snd]. cbn zeta.
  unfold save_target, analysed.
  set (w0 := if args_verbose args then setLevel DEBUG w else w).
  destruct (setLevel_if_frame (args_verbose args) w) as (_ & _ & _ & Hw0 & _).
  fold w0 in Hw0.
  destruct (fetch_html_content_frame env (args_url args) w0)
    as (_ & _ & _ & _ & Hf).
  rewrite Hw0 in Hf.
  destruct (page_text env (args_url args)) as [[|c html]|];
    [cbn [print files_written]; by rewrite app_nil_r | |
     cbn [print files_written]; by rewrite app_nil_r].
  destruct (run_logging_analyzer (html_parser env) (c :: html)
              (args_url args)
              (snd (fetch_html_content env (args_url args) w0)))
    as (_ & _ & _ & _ & Hf2 & _).
  destruct (map check_field (visited_inputs (html_parser env (c :: html))))
    as [|fd fds];
    [cbn [print files_written]; rewrite app_nil_r; congruence|].
  match goal with
  | |- context [foldl (print_field env) ?w1 ?l] =>
      destruct (foldl_print_field_frame env l w1) as (_ & _ & _ & Hf3 & _)
  end.
  cbn [print files_written] in Hf3.
  destruct (args_output args) as [[|c' f]|];
    try (rewrite app_nil_r; congruence).
  match goal with
  | |- context [save_results env ?r ?f ?w1] =>
      destruct (save_results_frame env r f w1) as (_ & _ & _ & Hf4)
  end.
  rewrite Hf4, Hf3, Hf2, Hf. reflexivity.
Qed.

Lemma fetch_log_quiet (env : Env) (url t : pystr) :
  page_text env url = Some t -> fetch_log env url = [].
Proof.
  unfold page_text, fetch_log.
  destruct (requests_get env url) as [s t' e|e]; [|discriminate].
  by destruct ((400 <=? s) && (s <? 600)).
Qed.

Lemma main_log (env : Env) (args : Namespace) (w : World) :
  scheme_accepted (args_url args) = true ->
  logger_level w <= 20 ->
  log_records (snd (main env args w)) =
  log_records w ++ fetch_log env (args_url args) ++
  analysis_log env (args_url args) ++
  match save_target env args with
  | Some filename =>
      [match IOError_of env filename with
       | None => (INFO, py "Results saved to " ++ filename)
       | Some e =>
           (ERROR,
            py "Error saving results to " ++ filename ++ py ": " ++ e)
       end]
  | None => []
  end.
Proof.
  intros Hs Hlvl. rewrite main_accepted by done. cbn [snd]. cbn zeta.
  unfold save_target, analysed, analysis_log.
  set (w0 := if args_verbose args then setLevel DEBUG w else w).
  destruct (setLevel_if_frame (args_verbose args) w)
    as (Hw0 & _ & _ & _ & Hl0).
  fold w0 in Hw0, Hl0. specialize (Hl0 Hlvl).
  destruct (fetch_html_content_frame env (args_url args) w0)
    as (_ & Hl1 & _).
  assert (Hlog1 : log_records (snd (fetch_html_content env (args_url args) w0))
                  = log_records w ++ fetch_log env (args_url args)).
  { rewrite fetch_html_content_log by lia. by rewrite Hw0. }
  destruct (page_text env (args_url args)) as [[|c html]|];
    [cbn [print log_records]; by rewrite !app_nil_r | |
     cbn [print log_records]; by rewrite !app_nil_r].
  destruct (run_logging_analyzer (html_parser env) (c :: html)
              (args_url args)
              (snd (fetch_html_content env (args_url args) w0)))
    as (_ & Hl2 & _ & _ & _ & Hlog2).
  rewrite Hlog1 in Hlog2. rewrite Hl1 in Hl2, Hlog2.
  specialize (Hlog2 ltac:(lia)).
  destruct (map check_field (visited_inputs (html_parser env (c :: html))))
    as [|fd fds];
    [cbn [print log_records]; rewrite Hlog2, app_nil_r;
     by rewrite <- app_assoc|].
  match goal with
  | |- context [foldl (print_field env) ?w1 ?l] =>
      destruct (foldl_print_field_frame env l w1) as (Hlog3 & Hl3 & _)
  end.
  cbn [print log_records logger_level] in Hlog3, Hl3.
  destruct (args_output args) as [[|c' f]|];
    try (rewrite Hlog3, Hlog2, app_nil_r; by rewrite <- app_assoc).
  rewrite save_results_log by (rewrite Hl3, Hl2; lia).
  rewrite Hlog3, Hlog2. by rewrite <- !app_assoc.
Qed.




(** X18.  When the analysis returned records and [-o] names a file, the
    run ends with the saving: if the write goes through, the file holds the
    records and the last log record is the info "Results saved to ..."; if
    it raises, no file is recorded and the last log record is the error
    "Error saving results to ...", with the text of the exception. *)
Theorem saving_is_the_last_step (env : Env) (args : Namespace) (w : World)
    (filename : pystr) (results : list FormField)
    (Hscheme : scheme_accepted (args_url args) = true)
    (Hlevel : logger_level w <= 20)
    (Hresults : analysed env (args_url args) = Some results)
    (Hsome : results <> [])
    (Houtput : args_output args = Some filename)
    (Hname : filename <> []) :
  match IOError_of env filename with
  | None =>
      files_written (snd (main env args w)) =
        files_written w ++ [(filename, json_dump results)] /\
      exists earlier,
        log_records (snd (main env args w)) =
        earlier ++ [(INFO, py "Results saved to " ++ filename)]
  | Some e =>
      files_written (snd (main env args w)) = files_written w /\
      exists earlier,
        log_records (snd (main env args w)) =
        earlier ++
        [(ERROR, py "Error saving results to " ++ filename ++ py ": " ++ e)]
  end.
Proof.
  rewrite main_files, main_log by done. unfold save_target.
  rewrite Hresults, Houtput.
  destruct results as [|fd fds]; [congruence|].
  destruct filename as [|c f]; [congruence|].
  cbn [default].
  destruct (IOError_of env (c :: f)) as [e|]; split;
    rewrite ?app_nil_r; try reflexivity;
    eexists; rewrite !app_assoc; reflexivity.
Qed.

Lemma saving_is_the_last_step_witness :
  files_written (snd (main sample_env sample_args initial_world)) =
    [(py "out.json",
      json_dump [check_field bad_email; check_field hidden_token])] /\
  files_written (snd (main read_only_env sample_args initial_world)) = [].
Proof.
  split.
  - refine (proj1 (saving_is_the_last_step sample_env sample_args
                     initial_world (py "out.json")
                     [check_field bad_email; check_field hidden_token]
                     _ _ _ _ _ _)); vm_compute; (reflexivity || discriminate).
  - refine (proj1 (saving_is_the_last_step read_only_env sample_args
                     initial_world (py "out.json")
                     [check_field bad_email; check_field hidden_token]
                     _ _ _ _ _ _)); vm_compute; (reflexivity || discriminate).
Defined.

(** X19.  The one line "No vulnerable form fields found." is what a run
    prints exactly when the scheme is accepted, the page came back with a
    non-empty text and no form of the page holds an input: the line tells
    that no field was found, not that the fields found are free of
    findings. *)
Theorem no_fields_message_iff (env : Env) (args : Namespace) (w : World) :
  stdout (snd (main env args w)) =
    stdout w ++ [py "No vulnerable form fields found."]
  <->
  scheme_accepted (args_url args) = true /\
  analysed env (args_url args) = Some [].
Proof.
  change (py "No vulnerable form fields found.") with NO_FIELDS.
  destruct (scheme_accepted (args_url args)) eqn:Hs.
  - rewrite main_stdout by done.
    destruct (analysed env (args_url args)) as [[|fd fds]|].
    + by split.
    + split; [|intros [_ H]; discriminate H].
      intros H. apply app_inv_head in H.
      apply (f_equal (hd [])) in H. vm_compute in H. discriminate H.
    + split; [|intros [_ H]; discriminate H].
      intros H. apply app_inv_head in H. vm_compute in H. discriminate H.
  - rewrite main_rejected by done. cbn [snd print stdout].
    split; [|intros [H _]; discriminate H].
    intros H. apply app_inv_head in H. vm_compute in H. discriminate H.
Qed.






(** ** The saved file *)

Lemma hexdigit_plain (d : N) : d < 16 -> plain_ascii (hexdigit d).
Proof.
  intros Hd. unfold plain_ascii, hexdigit.
  destruct (d <? 10) eqn:H; right; lia.
Qed.

Lemma hex4_plain (n : N) : Forall plain_ascii (hex4 n).
Proof.
  unfold hex4.
  repeat (apply Forall_cons; split;
          [apply hexdigit_plain; apply N.mod_upper_bound; lia|]).
  apply Forall_nil_2.
Qed.

Lemma plain_ascii_py_literal (l : pystr) :
  forallb (fun c => (c =? 10) || ((32 <=? c) && (c <=? 126))) l = true ->
  Forall plain_ascii l.
Proof.
  rewrite forallb_forall, Forall_forall. intros H c Hc.
  apply list_elem_of_In in Hc. specialize (H c Hc).
  unfold plain_ascii.
  apply orb_true_iff in H as [H|H]; [left; by apply N.eqb_eq|].
  apply andb_true_iff in H as [H1 H2]. right.
  apply N.leb_le in H1. apply N.leb_le in H2. lia.
Qed.

Lemma escape_char_plain (c : N) : Forall plain_ascii (escape_char c).
Proof.
  unfold escape_char.
  repeat (match goal with
          | |- context [if ?b then _ else _] => destruct b eqn:?
          end; [by apply plain_ascii_py_literal|]).
  destruct ((32 <=? c) && (c <=? 126)) eqn:Hp.
  - apply andb_true_iff in Hp as [H1 H2].
    apply N.leb_le in H1. apply N.leb_le in H2.
    apply Forall_cons. split; [right; lia | apply Forall_nil_2].
  - destruct (c <? 65536);
      rewrite ?Forall_app; repeat split;
      (apply hex4_plain || by apply plain_ascii_py_literal).
Qed.

Lemma encode_basestring_ascii_plain (s : pystr) :
  Forall plain_ascii (encode_basestring_ascii s).
Proof.
  unfold encode_basestring_ascii. rewrite !Forall_app. repeat split.
  - by apply plain_ascii_py_literal.
  - induction s as [|c s IH]; [apply Forall_nil_2|].
    cbn [map concat]. rewrite Forall_app.
    split; [apply escape_char_plain | exact IH].
  - by apply plain_ascii_py_literal.
Qed.

Lemma newline_indent_plain (depth : nat) :
  Forall plain_ascii (newline_indent depth).
Proof.
  unfold newline_indent. apply Forall_cons. split; [by left|].
  apply Forall_forall. intros c Hc.
  apply list_elem_of_In, repeat_spec in Hc. subst c.
  right. lia.
Qed.

Lemma json_encode_plain (v : JSON) :
  forall depth : nat, Forall plain_ascii (json_encode depth v).
Proof.
  induction v as [s|b|items IH|members IH] using JSON_nested_ind;
    intros depth.
  - apply encode_basestring_ascii_plain.
  - destruct b; by apply plain_ascii_py_literal.
  - destruct IH as [|x xs Hx Hxs]; [by apply plain_ascii_py_literal|].
    cbn [json_encode]. rewrite !Forall_app. repeat split.
    + by apply plain_ascii_py_literal.
    + apply newline_indent_plain.
    + apply Hx.
    + induction Hxs as [|y ys Hy _ IHys]; [apply Forall_nil_2|].
      rewrite !Forall_app. repeat split;
        [by apply plain_ascii_py_literal | apply newline_indent_plain
        | apply Hy | exact IHys].
    + apply newline_indent_plain.
    + by apply plain_ascii_py_literal.
  - destruct IH as [|[k x] kxs Hx Hxs]; [by apply plain_ascii_py_literal|].
    cbn [json_encode]. rewrite !Forall_app. repeat split.
    + by apply plain_ascii_py_literal.
    + apply newline_indent_plain.
    + apply encode_basestring_ascii_plain.
    + by apply plain_ascii_py_literal.
    + apply Hx.
    + induction Hxs as [|[k' y] kys Hy _ IHys]; [apply Forall_nil_2|].
      rewrite !Forall_app. repeat split;
        [by apply plain_ascii_py_literal | apply newline_indent_plain
        | apply encode_basestring_ascii_plain
        | by apply plain_ascii_py_literal | apply Hy | exact IHys].
    + apply newline_indent_plain.
    + by apply plain_ascii_py_literal.
Qed.

(** X23.  The text written to the file consists of printable ASCII
    characters and line feeds only, whatever characters the attributes of
    the page hold: quotes, backslashes, control characters and everything
    outside ASCII are written as escapes, so that the bytes of the file do
    not depend on the encoding it is opened with. *)
Theorem saved_text_is_plain_ascii (results : list FormField) :
  Forall plain_ascii (json_dump results).
Proof. unfold json_dump. apply json_encode_plain. Qed.

(** ** The log of a run *)


